(** * minidhcp: a shallow embedding of [minidhcp.py] and its wire-level properties

    The development follows the Python source top to bottom: byte strings
    and the handful of [bytearray] operations the program uses, the hex
    formatters, the option builders, the option decoding loop of the main
    loop, and finally the per-packet pipeline and the receive loop.

    Conventions.
    - A Python [bytes]/[bytearray] value is a [list Byte.byte]; the element
      type rules out values outside [0,255] exactly as Python does.
    - Python integers that occur here (indices, lengths, byte values read
      with [b[i]]) are never negative; they are modelled by [nat].
    - The dictionary [opts] is a [gmap nat (list Byte.byte)].
    - A Python computation that can raise is a value of [py A]. *)

From Stdlib Require Import Strings.Byte Strings.Ascii Strings.String.
From stdpp Require Import gmap strings list.

Abbreviation byte := Byte.byte.
Abbreviation bytes := (list Byte.byte).

#[global] Instance byte_eq_dec : EqDecision byte := Byte.byte_eq_dec.

(** ** Python exceptions and the result of a computation *)

Inductive exn := IndexError | KeyError | ValueError | NameError | OSError.

(** [OutOfFuel] only arises from the bounded unrolling of a [while] loop
    (see [option_loop]); the theorems show it is never reached. *)
Inductive py (A : Type) :=
  | Ok (a : A)
  | Raise (e : exn)
  | OutOfFuel.
Arguments Ok {A} a.
Arguments Raise {A} e.
Arguments OutOfFuel {A}.

#[global] Instance py_ret : MRet py := fun _ a => Ok a.
#[global] Instance py_bind : MBind py := fun _ _ f m =>
  match m with
  | Ok a => f a
  | Raise e => Raise e
  | OutOfFuel => OutOfFuel
  end.

(** ** bytes and bytearray primitives *)

Module Bytes.

(** [bytearray(n)]: n zero bytes. *)
Definition bytearray (n : nat) : bytes := replicate n Byte.x00.

(** [b[i]] for an integer index: the byte as an int, or IndexError. *)
Definition getitem (b : bytes) (i : nat) : py nat :=
  match b !! i with
  | Some x => Ok (Byte.to_nat x)
  | None => Raise IndexError
  end.

(** [b[lo:hi]]: slicing clips to the length and never raises. *)
Definition slice (b : bytes) (lo hi : nat) : bytes := take (hi - lo) (drop lo b).

(** [b[lo:]] *)
Definition slice_from (b : bytes) (lo : nat) : bytes := drop lo b.

(** [b[i] = v] on a bytearray: IndexError out of range, ValueError when
    the int is not in range(0, 256). *)
Definition setitem (b : bytes) (i v : nat) : py bytes :=
  if i <? length b then
    match Byte.of_nat v with
    | Some x => Ok (<[i:=x]> b)
    | None => Raise ValueError
    end
  else Raise IndexError.

(** [b[lo:hi] = v] on a bytearray: the slice is replaced by [v], whatever
    the length of [v]. *)
Definition setslice (b : bytes) (lo hi : nat) (v : bytes) : bytes :=
  take lo b ++ v ++ drop (lo `max` hi) b.

End Bytes.
Import Bytes.

(** Python's [==] between the two kinds of values the program compares.
    Values of different types are never equal. *)
Inductive pyval :=
  | PyInt (n : nat)
  | PyBytes (b : bytes).

Definition py_eq (x y : pyval) : bool :=
  match x, y with
  | PyInt m, PyInt n => m =? n
  | PyBytes a, PyBytes b => bool_decide (a = b)
  | _, _ => false
  end.

(** ** Formatters: readablebytes, readablemacaddress *)

Definition hexdigit (n : nat) : ascii :=
  nth n (list_ascii_of_string "0123456789ABCDEF") "?"%char.

(** ["{:02X}".format(x)] for a byte [x]. *)
Definition fmt02X (x : byte) : string :=
  let n := Byte.to_nat x in
  String (hexdigit (n / 16)) (String (hexdigit (n mod 16)) EmptyString).

Fixpoint hexloop (b : bytes) (readable : string) : string :=
  match b with
  | [] => readable
  | x :: b' => hexloop b' (readable +:+ fmt02X x)
  end.

Definition readablebytes (b : bytes) : string :=
  if length b =? 0 then "0xNull" else hexloop b "0x".

(** The [while i < 6] loop of readablemacaddress, from index [i] on. *)
Fixpoint macloop (i : nat) (b : bytes) (readable : string) : string :=
  match b with
  | [] => readable
  | x :: b' =>
      let readable := if 0 <? i then readable +:+ ":" else readable in
      macloop (S i) b' (readable +:+ fmt02X x)
  end.

Definition readablemacaddress (b : bytes) : string :=
  if negb (length b =? 6) then "<invalid MAC>" else macloop 0 b "".

(** ** Option builders *)

Definition buildipaddr (ip1 ip2 ip3 ip4 : nat) : py bytes :=
  let ipaddr := bytearray 4 in
  ipaddr ← setitem ipaddr 0 ip1;
  ipaddr ← setitem ipaddr 1 ip2;
  ipaddr ← setitem ipaddr 2 ip3;
  ipaddr ← setitem ipaddr 3 ip4;
  mret ipaddr.

Definition cookieconstant : py bytes := buildipaddr 99 130 83 99.

(** The test of the source is [(ba) == 0]: the bytearray itself is compared
    with the integer 0. *)
Definition buildbyteoption (optnum : nat) (ba : bytes) : py bytes :=
  let lenba := length ba in
  if py_eq (PyBytes ba) (PyInt 0) then
    let opt := bytearray 1 in
    opt ← setitem opt 0 optnum;
    mret opt
  else
    let opt := bytearray (2 + lenba) in
    opt ← setitem opt 0 optnum;
    opt ← setitem opt 1 lenba;
    let opt := setslice opt 2 (2 + lenba) ba in
    mret opt.

Definition build1byteoption (optnum databyte : nat) : py bytes :=
  let optbytes := bytearray 3 in
  optbytes ← setitem optbytes 0 optnum;
  optbytes ← setitem optbytes 1 1;
  optbytes ← setitem optbytes 2 databyte;
  mret optbytes.

Definition build4byteoption (optnum d1 d2 d3 d4 : nat) : py bytes :=
  let optbytes := bytearray 6 in
  optbytes ← setitem optbytes 0 optnum;
  optbytes ← setitem optbytes 1 4;
  optbytes ← setitem optbytes 2 d1;
  optbytes ← setitem optbytes 3 d2;
  optbytes ← setitem optbytes 4 d3;
  optbytes ← setitem optbytes 5 d4;
  mret optbytes.

Definition buildendoption : py bytes :=
  let optbytes := bytearray 1 in
  optbytes ← setitem optbytes 0 255;
  mret optbytes.

(** ** The option decoding loop of the main loop *)

Definition OPT_DHCP_MESSAGE_TYPE : nat := 53.

(** What the loop prints. *)
Inductive line :=
  | PadAt (i : nat)
  | WarnNoLength (option : nat)
  | WarnNoData (option optlen : nat)
  | OptionLine (option optlen : nat) (optdata : bytes).

(** The variables the loop updates: the index [i], the dictionary [opts]
    and the lines printed so far. *)
Record dstate := DState {
  idx : nat;
  opts : gmap nat bytes;
  out : list line
}.

Inductive ctl := Continue | Break.

(** One pass through the body of [while i < numoptbytes]. *)
Definition option_body (optiondata : bytes) (st : dstate) : py (ctl * dstate) :=
  let numoptbytes := length optiondata in
  let i := idx st in
  option ← getitem optiondata i;
  if option =? 0 then
    mret (Continue, DState (i + 1) (opts st) (out st ++ [PadAt i]))
  else if option =? 255 then
    mret (Break, st)
  else
    let i := i + 1 in
    if numoptbytes <=? i then
      mret (Break, DState i (opts st) (out st ++ [WarnNoLength option]))
    else
      optlen ← getitem optiondata i;
      let i := i + 1 in
      if numoptbytes <=? i + optlen then
        mret (Break, DState i (opts st) (out st ++ [WarnNoData option optlen]))
      else
        let optdata := slice optiondata i (i + optlen) in
        mret (Continue,
              DState (i + optlen) (<[option := optdata]> (opts st))
                     (out st ++ [OptionLine option optlen optdata])).

Fixpoint option_loop (fuel : nat) (optiondata : bytes) (st : dstate) : py dstate :=
  match fuel with
  | 0 => OutOfFuel
  | S fuel' =>
      if idx st <? length optiondata then
        r ← option_body optiondata st;
        match r with
        | (Break, st') => mret st'
        | (Continue, st') => option_loop fuel' optiondata st'
        end
      else mret st
  end.

(** [opts = {}], [i = 0], then the loop.  Every pass that continues moves [i]
    forward, so [length optiondata] passes and the final test are enough. *)
Definition process_options (optiondata : bytes) : py dstate :=
  option_loop (S (length optiondata)) optiondata (DState 0 ∅ []).

(** The entries the loop reports as decoded, in the order it prints them
    (the [print("Option:", ...)] just before [opts[option] = optdata]). *)
Definition entry_of (l : line) : option (nat * bytes) :=
  match l with
  | OptionLine option _ optdata => Some (option, optdata)
  | _ => None
  end.

Definition entries (ls : list line) : list (nat * bytes) := omap entry_of ls.

(** The payload of the last entry with code [c], if there is one. *)
Definition last_payload (c : nat) (es : list (nat * bytes)) : option bytes :=
  snd <$> last (filter (λ e, e.1 = c) es).

(** The dictionary and the printed entries tell the same story. *)
Definition agrees (st : dstate) : Prop :=
  ∀ c, opts st !! c = last_payload c (entries (out st)).

(** ** The per-packet pipeline of the main loop *)

(** The program's globals after start-up: [macaddr] is the upper-cased
    argument of [-m]; the four [ba...] values are the bytearrays returned by
    [ip2bytearray] for [-b], [-i], [-s] and [-g]. *)
Record config := Config {
  macaddr : string;
  baipbind : bytes;
  baipaddr : bytes;
  basubnet : bytes;
  bagateway : bytes
}.

(** [ip2bytearray] allocates [bytearray(4)] and only assigns items of it, so
    start-up leaves four bytearrays of length 4. *)
Definition config_ok (cfg : config) : Prop :=
  length (baipbind cfg) = 4 ∧ length (baipaddr cfg) = 4 ∧
  length (basubnet cfg) = 4 ∧ length (bagateway cfg) = 4.

(** The diagnostic printed before a [continue]. *)
Inductive reason :=
  | NoBytes
  | LessThan241
  | BadOp
  | BadHardwareType
  | BadHardwareAddressLength
  | MacMismatch
  | BadCookie
  | NoMessageType
  | MessageTypeNotSingleByte
  | MessageTypeNotSupported.

(** How one iteration of [while True] ends: with a [continue] and nothing
    sent, or with [sendto(offer, ...)]. *)
Inductive outcome :=
  | Ignored (why : reason)
  | Sent (responsename : string) (offer : bytes).

(** The response construction, from ["building response"] to the END option. *)
Definition build_response (cfg : config) (transactionid flags thismacaddr messagetype : bytes)
    : py (option string * bytes) :=
  let offer := bytearray 240 in
  offer ← setitem offer 0 2;
  offer ← setitem offer 1 1;
  offer ← setitem offer 2 6;
  offer ← setitem offer 3 0;
  let offer := setslice offer 4 8 transactionid in
  let offer := setslice offer 10 12 flags in
  let offer := setslice offer 16 20 (baipaddr cfg) in
  let offer := setslice offer 20 24 (baipbind cfg) in
  let offer := setslice offer 28 34 thismacaddr in
  cookie ← cookieconstant;
  let offer := setslice offer 236 240 cookie in
  let responsename : option string := None in
  '(responsename, offer) ←
    (if py_eq (PyBytes messagetype) (PyBytes [Byte.x01]) then
       o ← build1byteoption 53 2; mret (Some "DHCPOFFER", offer ++ o)
     else mret (responsename, offer));
  '(responsename, offer) ←
    (if py_eq (PyBytes messagetype) (PyBytes [Byte.x03]) then
       o ← build1byteoption 53 5; mret (Some "DHCPACK", offer ++ o)
     else mret (responsename, offer));
  o ← buildbyteoption 1 (basubnet cfg);
  let offer := offer ++ o in
  o ← buildbyteoption 3 (bagateway cfg);
  let offer := offer ++ o in
  o ← build4byteoption 51 0 1 81 128;
  let offer := offer ++ o in
  o ← buildbyteoption 54 (baipbind cfg);
  let offer := offer ++ o in
  o ← buildendoption;
  let offer := offer ++ o in
  mret (responsename, offer).

(** The magic cookie as the cookie check accepts it. *)
Definition magic : bytes := [Byte.x63; Byte.x82; Byte.x53; Byte.x63].

(** From the look-up of the DHCP message type option to [sendto]. *)
Definition respond (cfg : config) (transactionid flags thismacaddr : bytes)
    (opts : gmap nat bytes) : py outcome :=
  match opts !! OPT_DHCP_MESSAGE_TYPE with
  | None => mret (Ignored NoMessageType)
  | Some messagetype =>
      if negb (length messagetype =? 1) then mret (Ignored MessageTypeNotSingleByte) else
      if negb (py_eq (PyBytes messagetype) (PyBytes [Byte.x01])) &&
         negb (py_eq (PyBytes messagetype) (PyBytes [Byte.x03]))
      then mret (Ignored MessageTypeNotSupported) else
      '(responsename, offer) ← build_response cfg transactionid flags thismacaddr messagetype;
      match responsename with
      | None => Raise NameError
      | Some responsename => mret (Sent responsename offer)
      end
  end.

(** The body of [while True] for one received [packet]. *)
Definition handle (cfg : config) (packet : bytes) : py outcome :=
  let lenpacket := length packet in
  if lenpacket =? 0 then mret (Ignored NoBytes) else
  if lenpacket <? 241 then mret (Ignored LessThan241) else
  op ← getitem packet 0;
  if negb (op =? 1) && negb (op =? 2) then mret (Ignored BadOp) else
  hardwaretype ← getitem packet 1;
  if negb (hardwaretype =? 1) then mret (Ignored BadHardwareType) else
  lenhardwareaddress ← getitem packet 2;
  if negb (lenhardwareaddress =? 6) then mret (Ignored BadHardwareAddressLength) else
  hops ← getitem packet 3;
  let transactionid := slice packet 4 8 in
  let seconds := slice packet 8 10 in
  let flags := slice packet 10 12 in
  let thismacaddr := slice packet 28 34 in
  if negb (String.eqb (readablemacaddress thismacaddr) (macaddr cfg))
  then mret (Ignored MacMismatch) else
  let cookie := slice packet 236 240 in
  if negb (String.eqb (readablebytes cookie) "0x63825363")
  then mret (Ignored BadCookie) else
  let optiondata := slice_from packet 240 in
  st ← process_options optiondata;
  respond cfg transactionid flags thismacaddr (opts st).

(** *** The sockets *)

(** What one call of [recvfrom] gives the loop: a packet, or OSError. *)
Inductive arrival :=
  | Packet (packet : bytes)
  | RecvFails.

(** The socket calls that can fail, as the program meets them; [None] is an
    OSError raised by one of the calls.
    - [listen]: [socket()] and [bind((ipbind, 67))] before the main loop;
    - [transmit sent offer]: the calls made for one reply, [socket()],
      [bind(('', 0))], [setsockopt], [sendto(offer, ...)] and [close()],
      after the replies [sent] so far; [Some n] is the number of bytes
      [sendto] reports. *)
Record network := Network {
  listen : option unit;
  transmit : list (string * bytes) → bytes → option nat
}.

(** The receive loop, from the replies [sent] so far, on what [recvfrom]
    gives next: the replies whose sending was completed, in order, and
    whether the loop is back at [recvfrom] ([Ok]) or an exception ended the
    process. *)
Fixpoint main_loop (cfg : config) (net : network) (sent : list (string * bytes))
    (received : list arrival) : list (string * bytes) * py unit :=
  match received with
  | [] => (sent, Ok ())
  | RecvFails :: _ => (sent, Raise OSError)
  | Packet packet :: received' =>
      match handle cfg packet with
      | Ok (Ignored _) => main_loop cfg net sent received'
      | Ok (Sent responsename offer) =>
          match transmit net sent offer with
          | Some _ => main_loop cfg net (sent ++ [(responsename, offer)]) received'
          | None => (sent, Raise OSError)
          end
      | Raise e => (sent, Raise e)
      | OutOfFuel => (sent, OutOfFuel)
      end
  end.

(** ** Sample data *)

Module Sample.

Definition cfg : config :=
  Config "00:11:22:33:44:55"
         [Byte.xc0; Byte.xa8; Byte.x02; Byte.x35]
         [Byte.xc0; Byte.xa8; Byte.x02; Byte.x64]
         [Byte.xff; Byte.xff; Byte.xff; Byte.x00]
         [Byte.xc0; Byte.xa8; Byte.x02; Byte.xfe].

Definition mac : bytes := [Byte.x00; Byte.x11; Byte.x22; Byte.x33; Byte.x44; Byte.x55].
Definition othermac : bytes := [Byte.x00; Byte.x11; Byte.x22; Byte.x33; Byte.x44; Byte.x56].
Definition xid : bytes := [Byte.xde; Byte.xad; Byte.xbe; Byte.xef].
Definition goodcookie : bytes := [Byte.x63; Byte.x82; Byte.x53; Byte.x63].
Definition badcookie : bytes := [Byte.x63; Byte.x82; Byte.x53; Byte.x64].

(** A request packet: op 1, Ethernet, 6-byte address, the given hardware
    address, cookie and option area. *)
Definition request (hw cookie options : bytes) : bytes :=
  [Byte.x01; Byte.x01; Byte.x06; Byte.x00] ++ xid ++ replicate 20 Byte.x00 ++
  hw ++ replicate 202 Byte.x00 ++ cookie ++ options.

Definition discover : bytes := request mac goodcookie [Byte.x35; Byte.x01; Byte.x01; Byte.xff].
Definition dhcprequest : bytes := request mac goodcookie [Byte.x35; Byte.x01; Byte.x03; Byte.xff].

(** The DISCOVER of another host, and two packets with a bad cookie. *)
Definition stranger : bytes := request othermac goodcookie [Byte.x35; Byte.x01; Byte.x01; Byte.xff].
Definition badcookie_own : bytes := request mac badcookie [Byte.x35; Byte.x01; Byte.x01; Byte.xff].
Definition badcookie_stranger : bytes :=
  request othermac badcookie [Byte.x35; Byte.x01; Byte.x01; Byte.xff].

(** A DISCOVER and a REQUEST of the configured host whose option area is
    option 53 alone, with no END byte after its payload. *)
Definition discover_bare : bytes := request mac goodcookie [Byte.x35; Byte.x01; Byte.x01].
Definition dhcprequest_bare : bytes := request mac goodcookie [Byte.x35; Byte.x01; Byte.x03].

(** Option 53 twice, REQUEST first and DISCOVER last, after a PAD byte and
    around an empty option 12; a stray byte follows END. *)
Definition twice_reversed : bytes :=
  request mac goodcookie
    [Byte.x00; Byte.x35; Byte.x01; Byte.x03; Byte.x0c; Byte.x00;
     Byte.x35; Byte.x01; Byte.x01; Byte.xff; Byte.x07].

(** Option 53 twice: DISCOVER, then REQUEST. *)
Definition twice : bytes :=
  [Byte.x35; Byte.x01; Byte.x01; Byte.x35; Byte.x01; Byte.x03; Byte.xff].

End Sample.

(** ** Vocabulary of the statements *)

(** The checks on length, opcode, hardware type and hardware address length. *)
Definition frame_ok (packet : bytes) : Prop :=
  241 ≤ length packet ∧
  (packet !! 0 = Some Byte.x01 ∨ packet !! 0 = Some Byte.x02) ∧
  packet !! 1 = Some Byte.x01 ∧
  packet !! 2 = Some Byte.x06.

(** The client hardware address, as the program prints it, is the
    configured one. *)
Definition mac_matches (cfg : config) (packet : bytes) : Prop :=
  readablemacaddress (slice packet 28 34) = macaddr cfg.

Definition cookie_ok (packet : bytes) : Prop := slice packet 236 240 = magic.

Definition header_ok (cfg : config) (packet : bytes) : Prop :=
  frame_ok packet ∧ mac_matches cfg packet ∧ cookie_ok packet.

(** Some validation step fails: the length, the opcode, the hardware type,
    the hardware address length, the MAC comparison, the cookie, or the
    message type option (absent, not one byte long, or neither 1 nor 3). *)
Definition fails_validation (cfg : config) (packet : bytes) : Prop :=
  length packet = 0 ∨
  length packet < 241 ∨
  (packet !! 0 ≠ Some Byte.x01 ∧ packet !! 0 ≠ Some Byte.x02) ∨
  packet !! 1 ≠ Some Byte.x01 ∨
  packet !! 2 ≠ Some Byte.x06 ∨
  ¬ mac_matches cfg packet ∨
  ¬ cookie_ok packet ∨
  ∃ st, process_options (slice_from packet 240) = Ok st ∧
    (opts st !! 53 = None ∨
     (∃ d, opts st !! 53 = Some d ∧ length d ≠ 1) ∨
     (∃ d, opts st !! 53 = Some d ∧ d ≠ [Byte.x01] ∧ d ≠ [Byte.x03])).

(** The 240 bytes every reply starts with. *)
Definition reply_header (cfg : config) (transactionid flags thismacaddr : bytes) : bytes :=
  [Byte.x02; Byte.x01; Byte.x06; Byte.x00] ++ transactionid ++
  [Byte.x00; Byte.x00] ++ flags ++ replicate 4 Byte.x00 ++
  baipaddr cfg ++ baipbind cfg ++ replicate 4 Byte.x00 ++
  thismacaddr ++ replicate 202 Byte.x00 ++ magic.

(** The options of a reply whose message type byte is [t]. *)
Definition reply_options (cfg : config) (t : byte) : bytes :=
  [Byte.x35; Byte.x01; t] ++
  [Byte.x01; Byte.x04] ++ basubnet cfg ++
  [Byte.x03; Byte.x04] ++ bagateway cfg ++
  [Byte.x33; Byte.x04; Byte.x00; Byte.x01; Byte.x51; Byte.x80] ++
  [Byte.x36; Byte.x04] ++ baipbind cfg ++
  [Byte.xff].

(** ** showoptions *)

(** What [showoptions] prints; the value of an option is printed through
    [readablebytes]. *)
Inductive shown :=
  | ShowPad
  | ShowEnd
  | ShowNoLength (option : nat)
  | ShowNoData (option optlen : nat)
  | ShowOption (option optlen : nat) (value : string).

(** One pass through the body of the [while] loop of [showoptions], on the
    index [i] and the lines printed so far. *)
Definition show_body (b : bytes) (st : nat * list shown) : py (ctl * (nat * list shown)) :=
  let numbytes := length b in
  let '(i, printed) := st in
  option ← getitem b i;
  if option =? 0 then
    mret (Continue, (i + 1, printed ++ [ShowPad]))
  else if option =? 255 then
    mret (Break, (i, printed ++ [ShowEnd]))
  else
    let i := i + 1 in
    if numbytes <=? i then
      mret (Break, (i, printed ++ [ShowNoLength option]))
    else
      optlen ← getitem b i;
      let i := i + 1 in
      if numbytes <=? i + optlen then
        mret (Break, (i, printed ++ [ShowNoData option optlen]))
      else
        let optdata := slice b i (i + optlen) in
        mret (Continue,
              (i + optlen, printed ++ [ShowOption option optlen (readablebytes optdata)])).

Fixpoint show_loop (fuel : nat) (b : bytes) (st : nat * list shown) : py (list shown) :=
  match fuel with
  | 0 => OutOfFuel
  | S fuel' =>
      if st.1 <? length b then
        r ← show_body b st;
        match r with
        | (Break, st') => mret st'.2
        | (Continue, st') => show_loop fuel' b st'
        end
      else mret st.2
  end.

Definition showoptions (b : bytes) : py (list shown) :=
  show_loop (S (length b)) b (0, []).

(** The line [showoptions] prints where the main loop prints [l]. *)
Definition shown_of (l : line) : shown :=
  match l with
  | PadAt _ => ShowPad
  | WarnNoLength option => ShowNoLength option
  | WarnNoData option optlen => ShowNoData option optlen
  | OptionLine option optlen optdata => ShowOption option optlen (readablebytes optdata)
  end.

(** ** ip2bytearray and start-up *)

(** A Python string is a [string] through an encoding that keeps ASCII
    characters as they are and uses no ASCII byte for another character
    (UTF-8): comparing, concatenating and splitting at an ASCII character
    are then the same on both sides, and a string is empty exactly when its
    encoding is. *)

(** [s.split(sep)] for a one-character ASCII separator. *)
Fixpoint split (sep : ascii) (s : string) : list string :=
  match s with
  | EmptyString => [EmptyString]
  | String c s' =>
      if Ascii.eqb c sep then EmptyString :: split sep s'
      else match split sep s' with
           | o :: os => String c o :: os
           | [] => [String c EmptyString]
           end
  end.

(** The ASCII decimal digits and the value of a string of them. *)
Definition is_decimal (c : ascii) : bool :=
  let n := nat_of_ascii c in (48 <=? n) && (n <=? 57).

Fixpoint all_chars (p : ascii → bool) (s : string) : bool :=
  match s with
  | EmptyString => true
  | String c s' => p c && all_chars p s'
  end.

Fixpoint decimal_value (acc : nat) (s : string) : nat :=
  match s with
  | EmptyString => acc
  | String c s' => decimal_value (10 * acc + (nat_of_ascii c - 48)) s'
  end.

(** [o] is a non-empty string of at most 4300 ASCII decimal digits whose
    value is the byte [x]. *)
Definition octet (o : string) (x : byte) : Prop :=
  String.length o ≠ 0 ∧ String.length o ≤ 4300 ∧ all_chars is_decimal o = true ∧
  Byte.of_nat (decimal_value 0 o) = Some x.

(** ** Start-up: the command line *)

(** The program's string globals while the command line is read. *)
Record globals := Globals {
  g_macaddr : string;
  g_ipbind : string;
  g_ipaddr : string;
  g_subnet : string;
  g_gateway : string
}.

(** Why the program calls [exit()] before the main loop. *)
Inductive exit :=
  | OddArguments
  | UnrecognisedArgument (arg : string)
  | NoMacAddress
  | NoBindAddress
  | BadBindAddress (errmsg : string)
  | BadIpAddress (errmsg : string)
  | BadSubnetMask (errmsg : string)
  | BadGateway (errmsg : string).

Section Startup.

(** The builtins [str.upper], [str.isdigit] and [int] (of a string) are
    left abstract; what the proofs need of them is stated where it is
    used. *)
Variable upper : string → string.
Variable isdigit : string → bool.
Variable int : string → py nat.

(** The loop [while i < 4] with [todo] passes left. *)
Fixpoint octet_loop (todo i : nat) (octets : list string) (ba : bytes) : py (string * bytes) :=
  match todo with
  | 0 => mret ("OK", ba)
  | S todo' =>
      match octets !! i with
      | None => Raise IndexError
      | Some o =>
          if String.length o =? 0 then mret ("Badly formed IP address", ba) else
          if negb (isdigit o) then mret ("Octet in IP address is not all numbers", ba) else
          n ← int o;
          if n <? 0 then mret ("Octet out of range (possibly negeative)", ba) else
          n ← int o;
          if 255 <? n then mret ("Octet out of range (more than 255)", ba) else
          n ← int o;
          ba ← setitem ba i n;
          octet_loop todo' (i + 1) octets ba
      end
  end.

Definition ip2bytearray (ipaddress : string) : py (string * bytes) :=
  let ba := bytearray 4 in
  let octets := split "." ipaddress in
  if length octets <? 4 then mret ("Not enough octets in IP address", ba) else
  if 4 <? length octets then mret ("Too many octets in IP address", ba) else
  octet_loop 4 0 octets ba.

(** A field that passes the checks of the loop, with its value. *)
Definition field (o : string) (n : nat) : Prop :=
  String.length o ≠ 0 ∧ isdigit o = true ∧ int o = Ok n ∧ n ≤ 255.

(** The loop over the command line arguments from index [arg] on:
    [inl] when it calls [exit()], [inr] with the globals when it ends.
    Every pass moves [arg] forward, so [numargs] passes and the final test
    are enough. *)
Fixpoint arg_loop (fuel arg : nat) (argv : list string) (g : globals) : py (exit + globals) :=
  match fuel with
  | 0 => OutOfFuel
  | S fuel' =>
      let numargs := length argv - 1 in
      if arg <? numargs then
        match argv !! arg with
        | None => Raise IndexError
        | Some a =>
            let value : py string :=
              match argv !! (arg + 1) with
              | Some v => Ok v
              | None => Raise IndexError
              end in
            if String.eqb a "-m" then
              v ← value;
              arg_loop fuel' (arg + 2) argv
                (Globals (upper v) (g_ipbind g) (g_ipaddr g) (g_subnet g) (g_gateway g))
            else if String.eqb a "-b" then
              v ← value;
              arg_loop fuel' (arg + 2) argv
                (Globals (g_macaddr g) v (g_ipaddr g) (g_subnet g) (g_gateway g))
            else if String.eqb a "-i" then
              v ← value;
              arg_loop fuel' (arg + 2) argv
                (Globals (g_macaddr g) (g_ipbind g) v (g_subnet g) (g_gateway g))
            else if String.eqb a "-s" then
              v ← value;
              arg_loop fuel' (arg + 2) argv
                (Globals (g_macaddr g) (g_ipbind g) (g_ipaddr g) v (g_gateway g))
            else if String.eqb a "-g" then
              v ← value;
              arg_loop fuel' (arg + 2) argv
                (Globals (g_macaddr g) (g_ipbind g) (g_ipaddr g) (g_subnet g) v)
            else mret (inl (UnrecognisedArgument a))
        end
      else mret (inr g)
  end.

(** The main code up to the creation of the socket. *)
Definition startup (argv : list string) : py (exit + config) :=
  match argv !! 0 with
  | None => Raise IndexError
  | Some progname =>
      let numargs := length argv - 1 in
      if negb (numargs mod 2 =? 0) then mret (inl OddArguments) else
      r ← arg_loop (S numargs) 1 argv (Globals "" "" "" "" "");
      match r with
      | inl e => mret (inl e)
      | inr g =>
          if String.eqb (g_macaddr g) "" then mret (inl NoMacAddress) else
          if String.eqb (g_ipbind g) "" then mret (inl NoBindAddress) else
          '(errmsg, baipbind) ← ip2bytearray (g_ipbind g);
          if negb (String.eqb errmsg "OK") then mret (inl (BadBindAddress errmsg)) else
          '(errmsg, baipaddr) ← ip2bytearray (g_ipaddr g);
          if negb (String.eqb errmsg "OK") then mret (inl (BadIpAddress errmsg)) else
          '(errmsg, basubnet) ← ip2bytearray (g_subnet g);
          if negb (String.eqb errmsg "OK") then mret (inl (BadSubnetMask errmsg)) else
          '(errmsg, bagateway) ← ip2bytearray (g_gateway g);
          if negb (String.eqb errmsg "OK") then mret (inl (BadGateway errmsg)) else
          mret (inr (Config (g_macaddr g) baipbind baipaddr basubnet bagateway))
      end
  end.


End Startup.

(** The three builtins on strings of ASCII characters, where [upper]
    changes the letters a to z only, [isdigit] holds of the non-empty
    strings of decimal digits and [int] gives their value, up to CPython's
    default limit of 4300 digits; used to run the program on sample command
    lines. *)
Module OnAscii.

Definition upper_char (c : ascii) : ascii :=
  let n := nat_of_ascii c in
  if (97 <=? n) && (n <=? 122) then ascii_of_nat (n - 32) else c.

Fixpoint upper (s : string) : string :=
  match s with
  | EmptyString => EmptyString
  | String c s' => String (upper_char c) (upper s')
  end.

Definition isdigit (o : string) : bool :=
  negb (String.length o =? 0) && all_chars is_decimal o.

Definition int (o : string) : py nat :=
  if isdigit o && (String.length o <=? 4300)
  then Ok (decimal_value 0 o)
  else Raise ValueError.

End OnAscii.


(** The main loop did not stop at a warning: no line was printed, or the
    last one is not a premature-EOF warning. *)
Definition no_warning_last (ls : list line) : Prop :=
  match last ls with
  | Some (WarnNoLength _) | Some (WarnNoData _ _) => False
  | _ => True
  end.

(** The scan of [b] that ended in state [st] stopped at the END byte: the
    byte under the index is 255 and the loop was not left through a
    warning. *)
Definition stopped_at_END (b : bytes) (st : dstate) : Prop :=
  b !! idx st = Some Byte.xff ∧ no_warning_last (out st).

(** ** Option areas on the wire *)

(** A PAD byte or an option with its payload. *)
Inductive item :=
  | Pad
  | Opt (optnum : nat) (payload : bytes).

(** The bytes of an item: the PAD byte, or what [buildbyteoption] builds. *)
Definition item_bytes (it : item) : py bytes :=
  match it with
  | Pad => Ok [Byte.x00]
  | Opt optnum payload => buildbyteoption optnum payload
  end.

(** The items one after the other, as [offer += ...] appends them. *)
Fixpoint items_bytes (its : list item) : py bytes :=
  match its with
  | [] => Ok []
  | it :: its' => b ← item_bytes it; bs ← items_bytes its'; mret (b ++ bs)
  end.

Definition item_ok (it : item) : Prop :=
  match it with
  | Pad => True
  | Opt optnum payload => 1 ≤ optnum ≤ 254 ∧ length payload ≤ 255
  end.

Definition item_entry (it : item) : option (nat * bytes) :=
  match it with
  | Pad => None
  | Opt optnum payload => Some (optnum, payload)
  end.

(** The dictionary after [opts[option] = optdata] for each entry in turn. *)
Definition store (es : list (nat * bytes)) (m : gmap nat bytes) : gmap nat bytes :=
  foldl (λ m e, <[e.1 := e.2]> m) m es.

(** * Properties *)

(** ** Bytes and builders *)

Section BytesFacts.

Implicit Types (b ba : bytes) (x : byte).

Lemma to_nat_inj x (n : nat) y : Byte.to_nat x = n → Byte.of_nat n = Some y → x = y.
Proof.
  intros <-. rewrite Byte.of_to_nat. congruence.
Qed.

Lemma getitem_Some b i x : b !! i = Some x → getitem b i = Ok (Byte.to_nat x).
Proof. unfold getitem. by intros ->. Qed.

Lemma getitem_lt b i : i < length b → ∃ x, b !! i = Some x ∧ getitem b i = Ok (Byte.to_nat x).
Proof.
  intros [x Hx]%lookup_lt_is_Some. exists x. split; [done|by apply getitem_Some].
Qed.

Lemma setitem_Ok b i v x :
  i < length b → Byte.of_nat v = Some x → setitem b i v = Ok (<[i:=x]> b).
Proof.
  intros Hi Hv. unfold setitem.
  destruct (Nat.ltb_spec i (length b)); [|lia]. by rewrite Hv.
Qed.

Lemma length_slice b lo hi : hi ≤ length b → length (slice b lo hi) = hi - lo.
Proof. intros. unfold slice. rewrite length_take, length_drop. lia. Qed.

(** Whatever the payload, also the empty one, the builder emits the code,
    the length byte and the payload. *)
Lemma buildbyteoption_Ok optnum ba code lenbyte :
  Byte.of_nat optnum = Some code →
  Byte.of_nat (length ba) = Some lenbyte →
  buildbyteoption optnum ba = Ok (code :: lenbyte :: ba).
Proof.
  intros Hc Hl. unfold buildbyteoption. cbn [py_eq].
  rewrite (setitem_Ok _ 0 optnum code); [|cbn; lia|done]. cbn [mbind py_bind].
  rewrite (setitem_Ok _ 1 (length ba) lenbyte); [|cbn; lia|done]. cbn [mbind py_bind mret py_ret].
  f_equal. unfold setslice, bytearray.
  replace (2 `max` (2 + length ba)) with (2 + length ba) by lia.
  cbn. f_equal. f_equal.
  rewrite drop_ge; [by rewrite app_nil_r|by rewrite length_replicate].
Qed.

End BytesFacts.

(** ** The option decoding loop *)

Section Decoding.

Implicit Types (optiondata : bytes) (st : dstate).

(** Inside the loop ([i < numoptbytes]) the body raises nothing, and a
    pass that goes round again has moved [i] forward. *)
Lemma option_body_total optiondata st :
  idx st < length optiondata →
  ∃ c st', option_body optiondata st = Ok (c, st') ∧ (c = Continue → idx st < idx st').
Proof.
  intros Hi. unfold option_body.
  destruct (getitem_lt _ _ Hi) as (x & _ & ->). cbn [mbind py_bind].
  destruct (Byte.to_nat x =? 0); [eexists _, _; split; [done|cbn; lia]|].
  destruct (Byte.to_nat x =? 255); [eexists _, _; split; done|].
  destruct (Nat.leb_spec (length optiondata) (idx st + 1)) as [|Hlen];
    [eexists _, _; split; done|].
  destruct (getitem_lt _ _ Hlen) as (y & _ & ->). cbn [mbind py_bind].
  destruct (length optiondata <=? idx st + 1 + 1 + Byte.to_nat y);
    eexists _, _; (split; [done|]); [done|cbn; lia].
Qed.

Lemma option_loop_total fuel optiondata st :
  length optiondata - idx st < fuel →
  ∃ st', option_loop fuel optiondata st = Ok st'.
Proof.
  revert st. induction fuel as [|fuel IH]; intros st Hfuel; [lia|].
  cbn [option_loop].
  destruct (Nat.ltb_spec (idx st) (length optiondata)) as [Hi|]; [|by eexists].
  destruct (option_body_total _ _ Hi) as (c & st' & -> & Hprog). cbn [mbind py_bind].
  destruct c; [|by eexists].
  apply IH. specialize (Hprog eq_refl). lia.
Qed.

(** More fuel than needed changes nothing. *)
Lemma option_loop_fuel fuel fuel' optiondata st st' :
  option_loop fuel optiondata st = Ok st' → fuel ≤ fuel' →
  option_loop fuel' optiondata st = Ok st'.
Proof.
  revert fuel' st. induction fuel as [|fuel IH]; intros fuel' st; [done|].
  intros Hrun Hle. destruct fuel' as [|fuel']; [lia|].
  cbn [option_loop] in *.
  destruct (idx st <? length optiondata); [|done].
  destruct (option_body optiondata st) as [[[] st'']| |]; cbn [mbind py_bind] in *; try done.
  apply IH; [done|lia].
Qed.

(** *** Single passes *)

Lemma option_loop_S fuel optiondata st :
  idx st < length optiondata →
  option_loop (S fuel) optiondata st =
    r ← option_body optiondata st;
    match r with
    | (Break, st') => Ok st'
    | (Continue, st') => option_loop fuel optiondata st'
    end.
Proof.
  intros Hi. cbn [option_loop]. by destruct (Nat.ltb_spec (idx st) (length optiondata)); [|lia].
Qed.

(** An option whose payload ends before the last byte of the buffer. *)
Lemma option_body_entry optiondata st code lb :
  optiondata !! idx st = Some code →
  Byte.to_nat code ≠ 0 → Byte.to_nat code ≠ 255 →
  optiondata !! (idx st + 1) = Some lb →
  idx st + 1 + 1 + Byte.to_nat lb < length optiondata →
  let optdata := slice optiondata (idx st + 1 + 1) (idx st + 1 + 1 + Byte.to_nat lb) in
  option_body optiondata st =
    Ok (Continue,
        DState (idx st + 1 + 1 + Byte.to_nat lb)
               (<[Byte.to_nat code := optdata]> (opts st))
               (out st ++ [OptionLine (Byte.to_nat code) (Byte.to_nat lb) optdata])).
Proof.
  intros Hcode H0 H255 Hlb Hlen. unfold option_body.
  rewrite (getitem_Some _ _ _ Hcode). cbn [mbind py_bind].
  destruct (Nat.eqb_spec (Byte.to_nat code) 0); [done|].
  destruct (Nat.eqb_spec (Byte.to_nat code) 255); [done|].
  destruct (Nat.leb_spec (length optiondata) (idx st + 1)); [lia|].
  rewrite (getitem_Some _ _ _ Hlb). cbn [mbind py_bind].
  by destruct (Nat.leb_spec (length optiondata) (idx st + 1 + 1 + Byte.to_nat lb)); [lia|].
Qed.

Lemma option_body_end optiondata st :
  optiondata !! idx st = Some Byte.xff → option_body optiondata st = Ok (Break, st).
Proof. intros Hcode. unfold option_body. by rewrite (getitem_Some _ _ _ Hcode). Qed.

(** *** The dictionary against the printed entries *)

Lemma entries_snoc_skip ls l : entry_of l = None → entries (ls ++ [l]) = entries ls.
Proof. intros H. unfold entries. rewrite omap_app. cbn. by rewrite H, app_nil_r. Qed.

Lemma entries_snoc_option ls option optlen optdata :
  entries (ls ++ [OptionLine option optlen optdata]) = entries ls ++ [(option, optdata)].
Proof. unfold entries. by rewrite omap_app. Qed.

Lemma last_payload_snoc c es option optdata :
  last_payload c (es ++ [(option, optdata)]) =
    if decide (option = c) then Some optdata else last_payload c es.
Proof.
  unfold last_payload. rewrite filter_app, filter_cons, filter_nil. cbn.
  destruct (decide (option = c)); [by rewrite last_snoc|by rewrite app_nil_r].
Qed.

Lemma option_body_agrees optiondata st c st' :
  option_body optiondata st = Ok (c, st') → agrees st → agrees st'.
Proof.
  unfold option_body. intros Hbody Hst.
  destruct (getitem optiondata (idx st)) as [option| |]; cbn [mbind py_bind] in Hbody; try done.
  destruct (option =? 0).
  { injection Hbody as <- <-. intros k. cbn [opts out]. rewrite entries_snoc_skip by done. apply Hst. }
  destruct (option =? 255); [by injection Hbody as <- <-|].
  destruct (length optiondata <=? idx st + 1).
  { injection Hbody as <- <-. intros k. cbn [opts out]. rewrite entries_snoc_skip by done. apply Hst. }
  destruct (getitem optiondata (idx st + 1)) as [optlen| |]; cbn [mbind py_bind] in Hbody; try done.
  destruct (length optiondata <=? idx st + 1 + 1 + optlen); injection Hbody as <- <-.
  { intros k. cbn [opts out]. rewrite entries_snoc_skip by done. apply Hst. }
  intros k. cbn [opts out]. rewrite entries_snoc_option, last_payload_snoc.
  destruct (decide (option = k)) as [->|].
  - by rewrite lookup_insert_eq.
  - rewrite lookup_insert_ne by done. apply Hst.
Qed.

Lemma option_loop_agrees fuel optiondata st st' :
  option_loop fuel optiondata st = Ok st' → agrees st → agrees st'.
Proof.
  revert st. induction fuel as [|fuel IH]; intros st; [done|].
  cbn [option_loop].
  destruct (idx st <? length optiondata); [|by intros [= <-]].
  destruct (option_body optiondata st) as [[c st'']| |] eqn:Hbody; cbn [mbind py_bind]; try done.
  intros Hrun Hst. pose proof (option_body_agrees _ _ _ _ Hbody Hst).
  destruct c; [by eapply IH|]. by injection Hrun as <-.
Qed.

End Decoding.

(** ** The formatters *)

Section Formatters.

Implicit Types (x y : byte) (b : bytes) (s readable : string).

Lemma hexdigit_inj (m n : nat) : m < 16 → n < 16 → hexdigit m = hexdigit n → m = n.
Proof.
  intros Hm Hn.
  do 16 (destruct m as [|m];
    [do 16 (destruct n as [|n]; [vm_compute; congruence|]); lia|]).
  lia.
Qed.

Lemma hexdigits_inj (m n : nat) :
  m ≤ 255 → n ≤ 255 →
  hexdigit (m / 16) = hexdigit (n / 16) → hexdigit (m mod 16) = hexdigit (n mod 16) →
  m = n.
Proof.
  intros Hm Hn Hhi Hlo.
  apply hexdigit_inj in Hhi; [|apply Nat.Div0.div_lt_upper_bound; lia..].
  apply hexdigit_inj in Hlo; [|apply Nat.mod_upper_bound; lia..].
  rewrite (Nat.div_mod_eq m 16), (Nat.div_mod_eq n 16). by rewrite Hhi, Hlo.
Qed.

Lemma fmt02X_inj x y : fmt02X x = fmt02X y → x = y.
Proof.
  unfold fmt02X. cbv zeta. intros H.
  apply (to_nat_inj x (Byte.to_nat y)); [|apply Byte.of_to_nat].
  apply hexdigits_inj; [apply Byte.to_nat_bounded..|congruence|congruence].
Qed.

Lemma fmt02X_chars x y (c d : ascii) :
  fmt02X y = String c (String d EmptyString) →
  hexdigit (Byte.to_nat x / 16) = c → hexdigit (Byte.to_nat x mod 16) = d → x = y.
Proof.
  intros Hy Hc Hd. apply fmt02X_inj. rewrite Hy. unfold fmt02X. cbv zeta. by rewrite Hc, Hd.
Qed.

Lemma length_append s1 s2 :
  String.length (s1 +:+ s2) = String.length s1 + String.length s2.
Proof.
  induction s1 as [|c s1 IH]; simpl; [done|by f_equal].
Qed.

Lemma length_hexloop b readable :
  String.length (hexloop b readable) = String.length readable + 2 * length b.
Proof.
  revert readable. induction b as [|x b IH]; intros readable; cbn [hexloop length]; [lia|].
  rewrite IH, length_append. unfold fmt02X. cbn [String.length]. lia.
Qed.

(** Only the four cookie bytes print as [0x63825363]. *)
Lemma readablebytes_magic b : readablebytes b = "0x63825363" ↔ b = magic.
Proof.
  split; [|by intros ->].
  intros H. assert (length b = 4) as Hlen.
  { apply (f_equal String.length) in H. unfold readablebytes in H.
    destruct b as [|x b]; [done|]. cbn [length Nat.eqb] in H.
    rewrite length_hexloop in H. cbn in H. cbn [length]. lia. }
  destruct b as [|x0 [|x1 [|x2 [|x3 [|]]]]]; try done.
  unfold readablebytes in H. cbn [length Nat.eqb hexloop] in H.
  unfold magic.
  change ("0x63825363") with
    (((("0x" +:+ fmt02X Byte.x63) +:+ fmt02X Byte.x82) +:+ fmt02X Byte.x53) +:+ fmt02X Byte.x63) in H.
  unfold fmt02X at 1 2 3 4 5 6 7 8 in H. cbn [String.append] in H.
  injection H as H0 H0' H1 H1' H2 H2' H3 H3'.
  by rewrite (fmt02X_chars x0 Byte.x63 (hexdigit 6) (hexdigit 3) eq_refl H0 H0'),
    (fmt02X_chars x1 Byte.x82 (hexdigit 8) (hexdigit 2) eq_refl H1 H1'),
    (fmt02X_chars x2 Byte.x53 (hexdigit 5) (hexdigit 3) eq_refl H2 H2'),
    (fmt02X_chars x3 Byte.x63 (hexdigit 6) (hexdigit 3) eq_refl H3 H3').
Qed.

End Formatters.

(** ** The per-packet pipeline *)

(** Turn a list of known length into its elements. *)
Ltac explode l :=
  repeat (destruct l as [|? l]; cbn [length] in *; try lia).

Section Pipeline.

Implicit Types (cfg : config) (packet : bytes).

Lemma to_nat_eqb x (n : nat) y :
  Byte.of_nat n = Some y → (Byte.to_nat x =? n) = true → x = y.
Proof. intros Hy H%Nat.eqb_eq. by eapply to_nat_inj. Qed.

(** A packet that fails the first four checks is dropped. *)
Lemma handle_frame_bad cfg packet :
  (∃ why, handle cfg packet = Ok (Ignored why)) ∨ frame_ok packet.
Proof.
  unfold handle, frame_ok.
  destruct (length packet =? 0); [left; by eexists|].
  destruct (Nat.ltb_spec (length packet) 241) as [|Hlen]; [left; by eexists|].
  destruct (lookup_lt_is_Some_2 packet 0) as [op Hop]; [lia|].
  destruct (lookup_lt_is_Some_2 packet 1) as [ht Hht]; [lia|].
  destruct (lookup_lt_is_Some_2 packet 2) as [hl Hhl]; [lia|].
  rewrite (getitem_Some _ _ _ Hop). cbn [mbind py_bind].
  destruct (Byte.to_nat op =? 1) eqn:Hop1, (Byte.to_nat op =? 2) eqn:Hop2;
    cbn [negb andb]; try (left; by eexists).
  all: rewrite (getitem_Some _ _ _ Hht); cbn [mbind py_bind].
  all: destruct (Byte.to_nat ht =? 1) eqn:Hht1; cbn [negb]; [|left; by eexists].
  all: rewrite (getitem_Some _ _ _ Hhl); cbn [mbind py_bind].
  all: destruct (Byte.to_nat hl =? 6) eqn:Hhl6; cbn [negb]; [|left; by eexists].
  all: right.
  all: apply (to_nat_eqb _ 1 Byte.x01 eq_refl) in Hht1 as ->.
  all: apply (to_nat_eqb _ 6 Byte.x06 eq_refl) in Hhl6 as ->.
  all: repeat split; try done.
  - apply (to_nat_eqb _ 1 Byte.x01 eq_refl) in Hop1 as ->. by left.
  - apply (to_nat_eqb _ 1 Byte.x01 eq_refl) in Hop1 as ->. by left.
  - apply (to_nat_eqb _ 2 Byte.x02 eq_refl) in Hop2 as ->. by right.
Qed.

(** Past the first four checks: the MAC comparison, then the cookie
    comparison, then the options. *)
Lemma handle_frame_ok cfg packet :
  frame_ok packet →
  handle cfg packet =
    if negb (String.eqb (readablemacaddress (slice packet 28 34)) (macaddr cfg))
    then Ok (Ignored MacMismatch)
    else if negb (String.eqb (readablebytes (slice packet 236 240)) "0x63825363")
    then Ok (Ignored BadCookie)
    else st ← process_options (slice_from packet 240);
         respond cfg (slice packet 4 8) (slice packet 10 12) (slice packet 28 34) (opts st).
Proof.
  intros (Hlen & Hop & Hht & Hhl). unfold handle.
  destruct (Nat.eqb_spec (length packet) 0); [lia|].
  destruct (Nat.ltb_spec (length packet) 241); [lia|].
  destruct (getitem_lt packet 3) as (hops & _ & Hhops); [lia|].
  rewrite (getitem_Some _ _ _ Hht), (getitem_Some _ _ _ Hhl), Hhops.
  by destruct Hop as [Hop|Hop]; rewrite (getitem_Some _ _ _ Hop).
Qed.

Lemma handle_header_ok cfg packet :
  header_ok cfg packet →
  handle cfg packet =
    st ← process_options (slice_from packet 240);
    respond cfg (slice packet 4 8) (slice packet 10 12) (slice packet 28 34) (opts st).
Proof.
  intros (Hframe & Hmac & Hcookie). rewrite handle_frame_ok by done.
  unfold mac_matches in Hmac. unfold cookie_ok in Hcookie.
  rewrite Hmac, String.eqb_refl, Hcookie. done.
Qed.

(** What is not dropped before the options are read has a good header. *)
Lemma handle_header_bad cfg packet :
  (∃ why, handle cfg packet = Ok (Ignored why)) ∨ header_ok cfg packet.
Proof.
  destruct (handle_frame_bad cfg packet) as [|Hframe]; [by left|].
  rewrite handle_frame_ok by done. unfold header_ok, mac_matches, cookie_ok.
  destruct (String.eqb_spec (readablemacaddress (slice packet 28 34)) (macaddr cfg));
    cbn [negb]; [|left; by eexists].
  destruct (String.eqb_spec (readablebytes (slice packet 236 240)) "0x63825363") as [Hc|];
    cbn [negb]; [|left; by eexists].
  right. by apply readablebytes_magic in Hc.
Qed.

Lemma respond_type cfg transactionid flags thismacaddr (o : gmap nat bytes) messagetype :
  o !! 53 = Some messagetype →
  messagetype = [Byte.x01] ∨ messagetype = [Byte.x03] →
  respond cfg transactionid flags thismacaddr o =
    '(responsename, offer) ← build_response cfg transactionid flags thismacaddr messagetype;
    match responsename with
    | None => Raise NameError
    | Some responsename => Ok (Sent responsename offer)
    end.
Proof.
  intros Ho Hmt. unfold respond, OPT_DHCP_MESSAGE_TYPE. rewrite Ho.
  by destruct Hmt as [-> | ->].
Qed.

Lemma respond_other cfg transactionid flags thismacaddr (o : gmap nat bytes) :
  (∃ why, respond cfg transactionid flags thismacaddr o = Ok (Ignored why)) ∨
  o !! 53 = Some [Byte.x01] ∨ o !! 53 = Some [Byte.x03].
Proof.
  unfold respond, OPT_DHCP_MESSAGE_TYPE.
  destruct (o !! 53) as [messagetype|]; [|left; by eexists].
  destruct (length messagetype =? 1); cbn [negb]; [|left; by eexists].
  unfold py_eq.
  destruct (bool_decide_reflect (messagetype = [Byte.x01])) as [->|]; [right; by left|].
  destruct (bool_decide_reflect (messagetype = [Byte.x03])) as [->|]; [right; by right|].
  left. by eexists.
Qed.

(** The reply, byte for byte. *)
Lemma build_response_Ok cfg transactionid flags thismacaddr messagetype t responsename :
  config_ok cfg →
  length transactionid = 4 → length flags = 2 → length thismacaddr = 6 →
  (messagetype = [Byte.x01] ∧ t = Byte.x02 ∧ responsename = "DHCPOFFER") ∨
  (messagetype = [Byte.x03] ∧ t = Byte.x05 ∧ responsename = "DHCPACK") →
  build_response cfg transactionid flags thismacaddr messagetype =
    Ok (Some responsename,
        reply_header cfg transactionid flags thismacaddr ++ reply_options cfg t).
Proof.
  destruct cfg as [m b i s g]. unfold config_ok. cbn [baipbind baipaddr basubnet bagateway].
  intros (Hb & Hi & Hs & Hg) Ht Hf Hm Hmt.
  explode b. explode i. explode s. explode g.
  explode transactionid. explode flags. explode thismacaddr.
  by destruct Hmt as [(-> & -> & ->)|(-> & -> & ->)]; vm_compute.
Qed.

End Pipeline.

(** ** Replies *)

Section Replies.

Implicit Types (cfg : config) (packet : bytes).

Lemma slice_take (b : bytes) n lo hi : lo ≤ hi → hi ≤ n → slice (take n b) lo hi = slice b lo hi.
Proof.
  intros Hlo Hhi. unfold slice. rewrite !take_drop_commute, take_take. do 2 f_equal. lia.
Qed.

(** Where the bytes of a reply are. *)
Lemma reply_shape cfg transactionid flags thismacaddr t :
  config_ok cfg →
  length transactionid = 4 → length flags = 2 → length thismacaddr = 6 →
  let offer := reply_header cfg transactionid flags thismacaddr ++ reply_options cfg t in
  length offer = 268 ∧ offer !! 0 = Some Byte.x02 ∧
  slice offer 4 8 = transactionid ∧ slice_from offer 240 = reply_options cfg t ∧
  offer !! 242 = Some t ∧
  ∀ t', <[242 := t']> offer =
        reply_header cfg transactionid flags thismacaddr ++ reply_options cfg t'.
Proof.
  destruct cfg as [m b i s g]. unfold config_ok. cbn [baipbind baipaddr basubnet bagateway].
  intros (Hb & Hi & Hs & Hg) Ht Hf Hm.
  explode b. explode i. explode s. explode g.
  explode transactionid. explode flags. explode thismacaddr.
  by repeat split.
Qed.

(** A packet with a good header and message type 1 or 3 is answered. *)
Lemma handle_accept cfg packet st messagetype t responsename :
  config_ok cfg → header_ok cfg packet →
  process_options (slice_from packet 240) = Ok st →
  opts st !! 53 = Some messagetype →
  (messagetype = [Byte.x01] ∧ t = Byte.x02 ∧ responsename = "DHCPOFFER") ∨
  (messagetype = [Byte.x03] ∧ t = Byte.x05 ∧ responsename = "DHCPACK") →
  handle cfg packet =
    Ok (Sent responsename
          (reply_header cfg (slice packet 4 8) (slice packet 10 12) (slice packet 28 34) ++
           reply_options cfg t)).
Proof.
  intros Hcfg Hhdr Hst Ho Hmt. rewrite handle_header_ok by done.
  destruct Hhdr as ((Hlen & _) & _).
  rewrite Hst. cbn [mbind py_bind].
  assert (messagetype = [Byte.x01] ∨ messagetype = [Byte.x03]) as Hmt'
    by (destruct Hmt as [(? & _)|(? & _)]; auto).
  rewrite (respond_type _ _ _ _ _ messagetype) by done.
  rewrite (build_response_Ok _ _ _ _ _ t responsename);
    [done|done|rewrite length_slice; lia..|done].
Qed.

(** Whatever is sent is such a reply. *)
Lemma handle_Sent cfg packet responsename offer :
  config_ok cfg → handle cfg packet = Ok (Sent responsename offer) →
  241 ≤ length packet ∧
  ∃ t, offer = reply_header cfg (slice packet 4 8) (slice packet 10 12) (slice packet 28 34) ++
               reply_options cfg t.
Proof.
  intros Hcfg Hsent.
  destruct (handle_header_bad cfg packet) as [[why Hwhy]|Hhdr]; [congruence|].
  split; [apply Hhdr|].
  destruct (option_loop_total (S (length (slice_from packet 240)))
              (slice_from packet 240) (DState 0 ∅ [])) as [st Hst]; [cbn; lia|].
  fold (process_options (slice_from packet 240)) in Hst.
  pose proof Hsent as Hsent'. rewrite handle_header_ok, Hst in Hsent' by done.
  cbn [mbind py_bind] in Hsent'.
  destruct (respond_other cfg (slice packet 4 8) (slice packet 10 12) (slice packet 28 34)
              (opts st)) as [[why Hwhy]|[Ho|Ho]]; [congruence|..].
  - exists Byte.x02.
    rewrite (handle_accept _ _ st [Byte.x01] Byte.x02 "DHCPOFFER") in Hsent
      by auto. congruence.
  - exists Byte.x05.
    rewrite (handle_accept _ _ st [Byte.x03] Byte.x05 "DHCPACK") in Hsent
      by auto. congruence.
Qed.

End Replies.

(** * The claims *)

(** ** Option encoding and decoding *)

(** C3: for an empty payload the source does not emit the code alone: the
    test [(ba) == 0] compares a bytearray with an int and is never true, so
    the builder emits the code followed by a zero length byte. *)
Theorem buildbyteoption_empty_payload :
  buildbyteoption 12 [] = Ok [Byte.x0c; Byte.x00] ∧
  buildbyteoption 12 [] ≠ Ok [Byte.x0c].
Proof. split; [reflexivity|discriminate]. Qed.

(** C9: option decoding is total: on every byte sequence the loop ends
    within [length + 1] tests of its condition, with a state, raising
    nothing (in particular no IndexError), and more passes allowed change
    nothing. *)
Theorem process_options_total (optiondata : bytes) :
  ∃ st, process_options optiondata = Ok st ∧
        ∀ fuel, length optiondata < fuel →
                option_loop fuel optiondata (DState 0 ∅ []) = Ok st.
Proof.
  destruct (option_loop_total (S (length optiondata)) optiondata (DState 0 ∅ []))
    as [st Hst]; [cbn; lia|].
  exists st. split; [done|]. intros fuel Hfuel.
  eapply option_loop_fuel; [done|lia].
Qed.

(** C1: a payload that ends exactly at the last byte of the buffer is not
    decoded: on the three bytes 53, 1, 1 the loop prints the premature-EOF
    warning and leaves the dictionary empty. *)
Theorem payload_ending_at_buffer_end_is_dropped :
  ∃ st, process_options [Byte.x35; Byte.x01; Byte.x01] = Ok st ∧
        opts st !! 53 = None ∧ out st = [WarnNoData 53 1].
Proof. eexists. split; [reflexivity|]. by split. Qed.

(** C4: for a code in [1,254] and a payload of at most 255 bytes, decoding
    the encoded option followed by the END option gives the dictionary with
    the single entry code -> payload. *)
Theorem decode_encode_roundtrip (optnum : nat) (payload : bytes) :
  1 ≤ optnum ≤ 254 → length payload ≤ 255 →
  ∃ enc e st,
    buildbyteoption optnum payload = Ok enc ∧ buildendoption = Ok e ∧
    process_options (enc ++ e) = Ok st ∧ opts st = {[ optnum := payload ]}.
Proof.
  intros Hnum Hlen.
  destruct (Byte.of_nat optnum) as [code|] eqn:Hcode;
    [|apply Byte.of_nat_None_iff in Hcode; lia].
  destruct (Byte.of_nat (length payload)) as [lb|] eqn:Hlb;
    [|apply Byte.of_nat_None_iff in Hlb; lia].
  apply Byte.to_of_nat in Hcode as Hc. apply Byte.to_of_nat in Hlb as Hl.
  exists (code :: lb :: payload), [Byte.xff].
  cut (∃ st, process_options ((code :: lb :: payload) ++ [Byte.xff]) = Ok st ∧
             opts st = {[ optnum := payload ]}).
  { intros (st & ? & ?). exists st. by split; [apply buildbyteoption_Ok|]. }
  set (buf := (code :: lb :: payload) ++ [Byte.xff]).
  assert (length buf = length payload + 3) as Hbuf
    by (unfold buf; rewrite length_app; cbn; lia).
  unfold process_options.
  rewrite option_loop_S by (cbn [idx]; lia).
  rewrite (option_body_entry _ _ code lb); cbn [idx]; [|done|lia|lia|done|lia].
  cbn [mbind py_bind].
  destruct (length buf) as [|fuel] eqn:Hfuel; [lia|].
  rewrite option_loop_S by (cbn [idx]; lia).
  rewrite option_body_end.
  - cbn [mbind py_bind]. eexists. split; [done|]. cbn [opts].
    rewrite Hc, Hl. unfold slice, buf. cbn [Nat.add drop app].
    replace (S (S (length payload)) - 2) with (length payload) by lia.
    by rewrite drop_0, take_app_length.
  - cbn [idx]. rewrite Hl. unfold buf.
    change (0 + 1 + 1 + length payload) with (length (code :: lb :: payload)).
    by rewrite list_lookup_middle.
Qed.

Lemma decode_encode_roundtrip_witness :
  ∃ enc e st,
    buildbyteoption 12 [Byte.x61; Byte.x62] = Ok enc ∧ buildendoption = Ok e ∧
    process_options (enc ++ e) = Ok st ∧ opts st = {[ 12 := [Byte.x61; Byte.x62] ]}.
Proof. apply (decode_encode_roundtrip 12 [Byte.x61; Byte.x62]); cbn; lia. Defined.

(** C8: the dictionary maps every code to the payload of the last entry the
    loop decoded for it; so, for a packet with a good header, what happens
    next is decided by the last decoded entry of option 53. *)
Theorem last_write_wins (optiondata : bytes) (st : dstate) (c : nat) :
  process_options optiondata = Ok st →
  opts st !! c = last_payload c (entries (out st)) ∧
  ∀ cfg packet,
    header_ok cfg packet → optiondata = slice_from packet 240 →
    match last_payload 53 (entries (out st)) with
    | None => handle cfg packet = Ok (Ignored NoMessageType)
    | Some d =>
        handle cfg packet =
          respond cfg (slice packet 4 8) (slice packet 10 12) (slice packet 28 34) {[ 53 := d ]}
    end.
Proof.
  intros Hst.
  assert (agrees st) as Hagree by (eapply option_loop_agrees; [exact Hst|done]).
  split; [apply Hagree|].
  intros cfg packet Hhdr ->. rewrite handle_header_ok, Hst by done. cbn [mbind py_bind].
  rewrite <- Hagree. unfold respond, OPT_DHCP_MESSAGE_TYPE.
  destruct (opts st !! 53) as [d|]; [|done]. by rewrite lookup_singleton_eq.
Qed.

Lemma last_write_wins_witness :
  ∃ st, process_options Sample.twice = Ok st ∧
        opts st !! 53 = last_payload 53 (entries (out st)) ∧
        opts st !! 53 = Some [Byte.x03].
Proof.
  eexists. split; [reflexivity|].
  split; [|reflexivity].
  apply (last_write_wins Sample.twice). reflexivity.
Defined.

(** ** The validation pipeline *)

(** C2, as the source has it: the MAC comparison comes before the cookie
    comparison.  A packet that passes the length, opcode, hardware type and
    hardware address length checks and has a bad cookie is dropped; the
    diagnostic is the bad cookie when its hardware address is the configured
    one, and the MAC mismatch otherwise. *)
Theorem bad_cookie_after_mac_check (cfg : config) (packet : bytes) :
  frame_ok packet → ¬ cookie_ok packet →
  (mac_matches cfg packet → handle cfg packet = Ok (Ignored BadCookie)) ∧
  (¬ mac_matches cfg packet → handle cfg packet = Ok (Ignored MacMismatch)).
Proof.
  intros Hframe Hcookie. rewrite handle_frame_ok by done. unfold mac_matches.
  destruct (String.eqb_spec (readablemacaddress (slice packet 28 34)) (macaddr cfg));
    cbn [negb]; [|by split].
  split; [intros _|done].
  destruct (String.eqb_spec (readablebytes (slice packet 236 240)) "0x63825363") as [Hc|];
    [|done].
  by apply readablebytes_magic in Hc.
Qed.

Lemma sample_frame_ok (hw cookie options : bytes) :
  length hw = 6 → length cookie = 4 → 1 ≤ length options →
  frame_ok (Sample.request hw cookie options).
Proof.
  intros Hhw Hc Ho. unfold frame_ok, Sample.request. explode hw.
  split; [|split; [by left|by split]].
  rewrite !length_app, !length_replicate. cbn [length Sample.xid]. lia.
Qed.

Lemma bad_cookie_after_mac_check_witness :
  handle Sample.cfg Sample.badcookie_own = Ok (Ignored BadCookie) ∧
  handle Sample.cfg Sample.badcookie_stranger = Ok (Ignored MacMismatch).
Proof.
  split.
  - apply (bad_cookie_after_mac_check Sample.cfg Sample.badcookie_own);
      [apply sample_frame_ok; cbn; lia|by vm_compute|reflexivity].
  - apply (bad_cookie_after_mac_check Sample.cfg Sample.badcookie_stranger);
      [apply sample_frame_ok; cbn; lia|by vm_compute|by vm_compute].
Defined.

(** C2 as stated fails: a packet with a bad cookie from another host passes
    the first four checks and is dropped for its MAC address, not for its
    cookie. *)
Lemma bad_cookie_not_always_reported :
  ¬ (∀ cfg packet, frame_ok packet → ¬ cookie_ok packet →
       handle cfg packet = Ok (Ignored BadCookie)).
Proof.
  intros H. specialize (H Sample.cfg Sample.badcookie_stranger).
  assert (handle Sample.cfg Sample.badcookie_stranger = Ok (Ignored MacMismatch)) as Hrun
    by reflexivity.
  rewrite Hrun in H.
  assert (Ok (Ignored MacMismatch) = Ok (Ignored BadCookie)) as Heq; [|discriminate Heq].
  apply H; [apply sample_frame_ok; cbn; lia|by vm_compute].
Qed.

(** C7: a packet that fails any validation step is dropped: the iteration
    ends with a [continue], nothing is sent, no exception is raised, and the
    loop goes on with the next packet. *)
Theorem invalid_packet_is_dropped (cfg : config) (packet : bytes) :
  fails_validation cfg packet →
  (∃ why, handle cfg packet = Ok (Ignored why)) ∧
  ∀ net sent received,
    main_loop cfg net sent (Packet packet :: received) = main_loop cfg net sent received.
Proof.
  intros Hbad.
  assert (∃ why, handle cfg packet = Ok (Ignored why)) as [why Hwhy].
  { destruct (handle_header_bad cfg packet) as [|Hhdr]; [done|].
    pose proof Hhdr as ((Hlen & Hop & Hht & Hhl) & Hmac & Hcookie).
    destruct Hbad as [?|[?|[[? ?]|[?|[?|[?|[?|(st & Hst & Hopts)]]]]]]];
      try lia; try done; try (by destruct Hop).
    rewrite handle_header_ok, Hst by done. cbn [mbind py_bind].
    destruct (respond_other cfg (slice packet 4 8) (slice packet 10 12) (slice packet 28 34)
                (opts st)) as [|Ho]; [done|].
    exfalso.
    destruct Hopts as [Hnone|[(d & Hd & Hlen1)|(d & Hd & Hd1 & Hd3)]];
      destruct Ho as [Ho|Ho]; rewrite Ho in *; simplify_eq; done. }
  split; [by exists why|]. intros net sent received. cbn [main_loop]. by rewrite Hwhy.
Qed.

Lemma invalid_packet_is_dropped_witness :
  fails_validation Sample.cfg Sample.stranger ∧
  (∃ why, handle Sample.cfg Sample.stranger = Ok (Ignored why)) ∧
  ∀ net sent received,
    main_loop Sample.cfg net sent (Packet Sample.stranger :: received) =
    main_loop Sample.cfg net sent received.
Proof.
  assert (fails_validation Sample.cfg Sample.stranger) as Hbad.
  { do 5 right. left. by vm_compute. }
  split; [exact Hbad|]. exact (invalid_packet_is_dropped Sample.cfg Sample.stranger Hbad).
Defined.

(** ** Replies *)

(** X21: a packet from the configured host with a good header and opcode 1
    whose option 53, as the option loop decodes it, is the single byte 1 is
    answered with a DHCPOFFER: opcode 2, the transaction id of the request,
    and after the 240-byte header the options 53 = 2, 1 = subnet mask,
    3 = gateway, 51 = 0,1,81,128, 54 = bind address, and END, in this
    order. *)
Theorem discover_gets_offer (cfg : config) (packet : bytes) (st : dstate) :
  config_ok cfg →
  241 ≤ length packet →
  packet !! 0 = Some Byte.x01 → packet !! 1 = Some Byte.x01 → packet !! 2 = Some Byte.x06 →
  slice packet 236 240 = [Byte.x63; Byte.x82; Byte.x53; Byte.x63] →
  readablemacaddress (slice packet 28 34) = macaddr cfg →
  process_options (slice_from packet 240) = Ok st →
  opts st !! 53 = Some [Byte.x01] →
  ∃ offer,
    handle cfg packet = Ok (Sent "DHCPOFFER" offer) ∧
    offer !! 0 = Some Byte.x02 ∧
    slice offer 4 8 = slice packet 4 8 ∧
    slice_from offer 240 =
      [Byte.x35; Byte.x01; Byte.x02] ++
      [Byte.x01; Byte.x04] ++ basubnet cfg ++
      [Byte.x03; Byte.x04] ++ bagateway cfg ++
      [Byte.x33; Byte.x04; Byte.x00; Byte.x01; Byte.x51; Byte.x80] ++
      [Byte.x36; Byte.x04] ++ baipbind cfg ++
      [Byte.xff].
Proof.
  intros Hcfg Hlen Hop Hht Hhl Hcookie Hmac Hst Ho.
  eexists. split.
  - apply (handle_accept cfg packet st [Byte.x01] Byte.x02); try done; [|by left].
    split; [|done]. split; [done|]. split; [by left|done].
  - destruct (reply_shape cfg (slice packet 4 8) (slice packet 10 12) (slice packet 28 34)
                Byte.x02) as (_ & H0 & Hxid & Hoptions & _);
      [done|rewrite length_slice; lia..|].
    by repeat split.
Qed.

Lemma discover_gets_offer_witness :
  ∃ offer,
    handle Sample.cfg Sample.discover = Ok (Sent "DHCPOFFER" offer) ∧
    offer !! 0 = Some Byte.x02 ∧
    slice offer 4 8 = Sample.xid ∧
    slice_from offer 240 =
      [Byte.x35; Byte.x01; Byte.x02;
       Byte.x01; Byte.x04; Byte.xff; Byte.xff; Byte.xff; Byte.x00;
       Byte.x03; Byte.x04; Byte.xc0; Byte.xa8; Byte.x02; Byte.xfe;
       Byte.x33; Byte.x04; Byte.x00; Byte.x01; Byte.x51; Byte.x80;
       Byte.x36; Byte.x04; Byte.xc0; Byte.xa8; Byte.x02; Byte.x35;
       Byte.xff].
Proof.
  refine (discover_gets_offer Sample.cfg Sample.discover
            (DState 3 {[ 53 := [Byte.x01] ]} [OptionLine 53 1 [Byte.x01]]) _ _ _ _ _ _ _ _ _);
    try reflexivity.
  - by repeat split.
  - vm_compute. lia.
Defined.

(** X22: two packets with the same good 240-byte header from the configured
    host, one whose decoded option 53 is the byte 1 and one whose decoded
    option 53 is the byte 3, get replies of the same length that agree in
    every byte but the one at index 242, the value of option 53: 2 in the
    DHCPOFFER and 5 in the DHCPACK. *)
Theorem offer_and_ack_differ_in_one_byte (cfg : config) (p1 p2 : bytes) (st1 st2 : dstate) :
  config_ok cfg →
  header_ok cfg p1 → header_ok cfg p2 →
  take 240 p1 = take 240 p2 →
  process_options (slice_from p1 240) = Ok st1 → opts st1 !! 53 = Some [Byte.x01] →
  process_options (slice_from p2 240) = Ok st2 → opts st2 !! 53 = Some [Byte.x03] →
  ∃ offer ack,
    handle cfg p1 = Ok (Sent "DHCPOFFER" offer) ∧
    handle cfg p2 = Ok (Sent "DHCPACK" ack) ∧
    length offer = length ack ∧
    offer !! 242 = Some Byte.x02 ∧ ack !! 242 = Some Byte.x05 ∧
    ∀ i, i ≠ 242 → offer !! i = ack !! i.
Proof.
  intros Hcfg Hh1 Hh2 Hsame Hst1 Ho1 Hst2 Ho2.
  assert (∀ lo hi, lo ≤ hi → hi ≤ 240 → slice p2 lo hi = slice p1 lo hi) as Hslice.
  { intros lo hi ? ?. by rewrite <- (slice_take p2 240), <- (slice_take p1 240), Hsame. }
  pose proof Hh1 as ((Hlen1 & _) & _).
  destruct (reply_shape cfg (slice p1 4 8) (slice p1 10 12) (slice p1 28 34) Byte.x02)
    as (Hlen & _ & _ & _ & H242 & Hset); [done|rewrite length_slice; lia..|].
  eexists _, (<[242 := Byte.x05]> _). split; [|split].
  - apply (handle_accept cfg p1 st1 [Byte.x01] Byte.x02); try done. by left.
  - rewrite Hset, <- !Hslice by lia.
    apply (handle_accept cfg p2 st2 [Byte.x03] Byte.x05); try done. by right.
  - split; [by rewrite length_insert|]. split; [done|]. split.
    + apply list_lookup_insert_eq. lia.
    + intros i Hi. by rewrite list_lookup_insert_ne.
Qed.

Lemma sample_header_ok (options : bytes) :
  1 ≤ length options → header_ok Sample.cfg (Sample.request Sample.mac Sample.goodcookie options).
Proof.
  intros Ho. split; [apply sample_frame_ok; cbn; lia|]. by split.
Qed.

Lemma offer_and_ack_differ_in_one_byte_witness :
  ∃ offer ack,
    handle Sample.cfg Sample.discover = Ok (Sent "DHCPOFFER" offer) ∧
    handle Sample.cfg Sample.dhcprequest = Ok (Sent "DHCPACK" ack) ∧
    length offer = length ack ∧
    offer !! 242 = Some Byte.x02 ∧ ack !! 242 = Some Byte.x05 ∧
    ∀ i, i ≠ 242 → offer !! i = ack !! i.
Proof.
  refine (offer_and_ack_differ_in_one_byte Sample.cfg Sample.discover Sample.dhcprequest
            (DState 3 {[ 53 := [Byte.x01] ]} [OptionLine 53 1 [Byte.x01]])
            (DState 3 {[ 53 := [Byte.x03] ]} [OptionLine 53 1 [Byte.x03]])
            _ _ _ _ _ _ _ _); try reflexivity.
  - by repeat split.
  - apply sample_header_ok. cbn. lia.
  - apply sample_header_ok. cbn. lia.
Defined.

(** C5: a well-formed DISCOVER of the configured host gets no reply when
    the payload of option 53 is the last byte of the packet: 243 bytes,
    opcode 1, hardware type 1, address length 6, the magic cookie, the
    configured hardware address, and the option area 53, 1, 1; the option
    loop leaves the dictionary empty and the packet is dropped for a
    missing message type. *)
Theorem bare_discover_gets_no_reply :
  length Sample.discover_bare = 243 ∧
  Sample.discover_bare !! 0 = Some Byte.x01 ∧
  Sample.discover_bare !! 1 = Some Byte.x01 ∧
  Sample.discover_bare !! 2 = Some Byte.x06 ∧
  slice Sample.discover_bare 236 240 = [Byte.x63; Byte.x82; Byte.x53; Byte.x63] ∧
  readablemacaddress (slice Sample.discover_bare 28 34) = macaddr Sample.cfg ∧
  slice_from Sample.discover_bare 240 = [Byte.x35; Byte.x01; Byte.x01] ∧
  config_ok Sample.cfg ∧
  handle Sample.cfg Sample.discover_bare = Ok (Ignored NoMessageType).
Proof. by repeat split. Qed.

(** C6: a DISCOVER and a REQUEST of the configured host that differ in the
    one payload byte of option 53 (index 242) get no reply at all when that
    byte is the last one of the packet: both are dropped for a missing
    message type. *)
Theorem bare_pair_gets_no_replies :
  Sample.dhcprequest_bare = <[242 := Byte.x03]> Sample.discover_bare ∧
  Sample.discover_bare !! 242 = Some Byte.x01 ∧
  header_ok Sample.cfg Sample.discover_bare ∧
  header_ok Sample.cfg Sample.dhcprequest_bare ∧
  slice_from Sample.discover_bare 240 = [Byte.x35; Byte.x01; Byte.x01] ∧
  slice_from Sample.dhcprequest_bare 240 = [Byte.x35; Byte.x01; Byte.x03] ∧
  handle Sample.cfg Sample.discover_bare = Ok (Ignored NoMessageType) ∧
  handle Sample.cfg Sample.dhcprequest_bare = Ok (Ignored NoMessageType).
Proof.
  split; [reflexivity|]. split; [reflexivity|].
  split; [apply sample_header_ok; cbn; lia|].
  split; [apply sample_header_ok; cbn; lia|].
  by repeat split.
Qed.

(** C10: every reply that is sent is 268 bytes long. *)
Theorem reply_length_268 (cfg : config) (packet : bytes) (responsename : string) (offer : bytes) :
  config_ok cfg →
  handle cfg packet = Ok (Sent responsename offer) →
  length offer = 268.
Proof.
  intros Hcfg Hsent.
  destruct (handle_Sent cfg packet responsename offer Hcfg Hsent) as (Hlen & t & ->).
  by destruct (reply_shape cfg (slice packet 4 8) (slice packet 10 12) (slice packet 28 34) t)
    as (? & _); [done|rewrite length_slice; lia..|].
Qed.

Lemma reply_length_268_witness :
  ∃ offer, handle Sample.cfg Sample.dhcprequest = Ok (Sent "DHCPACK" offer) ∧ length offer = 268.
Proof.
  eexists. split; [reflexivity|].
  apply (reply_length_268 Sample.cfg Sample.dhcprequest "DHCPACK"); [by repeat split|reflexivity].
Defined.

(** * Further properties *)

(** ** Decoding sequences of options *)

Section Items.

Implicit Types (its : list item) (enc pre rest : bytes) (st : dstate).

Lemma buildbyteoption_item optnum payload :
  1 ≤ optnum ≤ 254 → length payload ≤ 255 →
  ∃ code lb, buildbyteoption optnum payload = Ok (code :: lb :: payload) ∧
             Byte.to_nat code = optnum ∧ Byte.to_nat lb = length payload.
Proof.
  intros Hnum Hlen.
  destruct (Byte.of_nat optnum) as [code|] eqn:Hcode;
    [|apply Byte.of_nat_None_iff in Hcode; lia].
  destruct (Byte.of_nat (length payload)) as [lb|] eqn:Hlb;
    [|apply Byte.of_nat_None_iff in Hlb; lia].
  exists code, lb. split; [by apply buildbyteoption_Ok|].
  split; by apply Byte.to_of_nat.
Qed.

Lemma items_bytes_Ok its : Forall item_ok its → ∃ enc, items_bytes its = Ok enc.
Proof.
  induction 1 as [|it its Hit _ [enc IH]]; [by eexists|].
  cbn [items_bytes]. rewrite IH.
  destruct it as [|optnum payload]; [by eexists|].
  destruct Hit as [Hnum Hlen].
  destruct (buildbyteoption_item optnum payload Hnum Hlen) as (code & lb & Hb & _).
  cbn [item_bytes]. rewrite Hb. by eexists.
Qed.

Lemma items_bytes_length its enc :
  Forall item_ok its → items_bytes its = Ok enc → length its ≤ length enc.
Proof.
  intros Hok. revert enc. induction Hok as [|it its Hit Hok IH]; intros enc; [cbn; lia|].
  cbn [items_bytes]. destruct (items_bytes_Ok its) as [bs Hbs]; [done|].
  rewrite Hbs. specialize (IH bs Hbs).
  destruct it as [|optnum payload].
  - intros [= <-]. cbn. lia.
  - destruct Hit as [Hnum Hlen].
    destruct (buildbyteoption_item optnum payload Hnum Hlen) as (code & lb & Hb & _).
    cbn [item_bytes]. rewrite Hb. intros [= <-]. cbn. rewrite length_app. lia.
Qed.

Lemma option_body_pad optiondata st :
  optiondata !! idx st = Some Byte.x00 →
  option_body optiondata st =
    Ok (Continue, DState (idx st + 1) (opts st) (out st ++ [PadAt (idx st)])).
Proof. intros Hcode. unfold option_body. by rewrite (getitem_Some _ _ _ Hcode). Qed.

(** The loop walks through well-formed items that are followed by at least
    one more byte, one pass per item. *)
Lemma option_loop_items its :
  ∀ pre enc rest st fuel,
    Forall item_ok its → items_bytes its = Ok enc → rest ≠ [] →
    idx st = length pre →
    ∃ st', option_loop (length its + fuel) (pre ++ enc ++ rest) st =
             option_loop fuel (pre ++ enc ++ rest) st' ∧
           idx st' = length pre + length enc ∧
           opts st' = store (omap item_entry its) (opts st) ∧
           entries (out st') = entries (out st) ++ omap item_entry its.
Proof.
  induction its as [|it its IH]; intros pre enc rest st fuel Hok Henc Hrest Hidx.
  { injection Henc as <-. exists st. cbn. rewrite app_nil_r. repeat split; (lia || done). }
  apply Forall_cons in Hok as [Hit Hok].
  destruct (items_bytes_Ok its Hok) as [bs Hbs].
  cbn [items_bytes] in Henc. rewrite Hbs in Henc.
  assert (0 < length rest) by (destruct rest; [done|cbn; lia]).
  destruct it as [|optnum payload].
  - injection Henc as <-. cbn [length Nat.add].
    rewrite option_loop_S by (rewrite Hidx, !length_app; cbn; lia).
    rewrite option_body_pad by (rewrite Hidx; by apply list_lookup_middle).
    cbn [mbind py_bind].
    destruct (IH (pre ++ [Byte.x00]) bs rest
                (DState (idx st + 1) (opts st) (out st ++ [PadAt (idx st)])) fuel)
      as (st' & Hrun & Hi & Ho & He); [done..|cbn; rewrite length_app; cbn; lia|].
    exists st'.
    replace (pre ++ (Byte.x00 :: bs) ++ rest) with ((pre ++ [Byte.x00]) ++ bs ++ rest)
      by (by rewrite <- (assoc_L (++))).
    split; [done|]. cbn [opts out idx] in *.
    rewrite Hi, Ho, He, length_app, entries_snoc_skip by done. cbn. repeat split; lia.
  - destruct Hit as [Hnum Hlen].
    destruct (buildbyteoption_item optnum payload Hnum Hlen) as (code & lb & Hb & Hc & Hl).
    cbn [item_bytes] in Henc. rewrite Hb in Henc. injection Henc as <-.
    cbn [length Nat.add].
    set (buf := pre ++ ((code :: lb :: payload) ++ bs) ++ rest).
    assert (length buf = length pre + (2 + length payload + length bs) + length rest) as Hbuf
      by (unfold buf; rewrite !length_app; cbn; rewrite ?length_app; lia).
    assert (buf = (pre ++ code :: lb :: payload) ++ bs ++ rest) as Hbuf'
      by (unfold buf; by rewrite <- !(assoc_L (++))).
    change (pre ++ (code :: lb :: payload ++ bs) ++ rest) with buf.
    rewrite option_loop_S by lia.
    rewrite (option_body_entry _ _ code lb); [|unfold buf..|lia].
    + cbn [mbind py_bind]. rewrite Hidx, Hc, Hl.
      destruct (IH (pre ++ code :: lb :: payload) bs rest
                  (DState (length pre + 1 + 1 + length payload)
                     (<[optnum := slice buf (length pre + 1 + 1)
                                    (length pre + 1 + 1 + length payload)]> (opts st))
                     (out st ++ [OptionLine optnum (length payload)
                                   (slice buf (length pre + 1 + 1)
                                      (length pre + 1 + 1 + length payload))])) fuel)
        as (st' & Hrun & Hi & Ho & He);
        [done..|cbn; rewrite length_app; cbn; lia|].
      exists st'. rewrite <- Hbuf' in Hrun. split; [done|].
      cbn [opts out idx] in *. rewrite Hi, Ho, He, length_app, entries_snoc_option.
      assert (slice buf (length pre + 1 + 1) (length pre + 1 + 1 + length payload) = payload)
        as ->.
      { unfold slice, buf.
        replace (length pre + 1 + 1 + length payload - (length pre + 1 + 1))
          with (length payload) by lia.
        replace (length pre + 1 + 1) with (length (pre ++ [code; lb]))
          by (rewrite length_app; cbn; lia).
        rewrite <- (assoc_L (++) (code :: lb :: payload)).
        change ((code :: lb :: payload) ++ bs ++ rest) with ([code; lb] ++ payload ++ bs ++ rest).
        rewrite (assoc_L (++) pre), drop_app_length. by rewrite take_app_length. }
      cbn. rewrite length_app. cbn. rewrite <- (assoc_L (++)). repeat split; lia.
    + rewrite Hidx. by apply list_lookup_middle.
    + lia.
    + lia.
    + rewrite Hidx. rewrite lookup_app_r by lia.
      by replace (length pre + 1 - length pre) with 1 by lia.
Qed.

End Items.

(** X1: any sequence of PAD bytes and options (codes 1..254, payloads of at
    most 255 bytes) built by [buildbyteoption] and followed by the END byte
    is decoded entry for entry, in order, whatever bytes follow END; the
    dictionary is the one obtained by storing the entries in turn. *)
Theorem decode_items_then_end (its : list item) (junk : bytes) :
  Forall item_ok its →
  ∃ enc st,
    items_bytes its = Ok enc ∧
    process_options (enc ++ Byte.xff :: junk) = Ok st ∧
    entries (out st) = omap item_entry its ∧
    opts st = store (omap item_entry its) ∅.
Proof.
  intros Hok. destruct (items_bytes_Ok its Hok) as [enc Henc].
  destruct (option_loop_items its [] enc (Byte.xff :: junk) (DState 0 ∅ []) 1)
    as (st & Hrun & Hi & Ho & He); [done..|].
  exists enc, st. split; [done|]. cbn [app length Nat.add opts out] in *.
  split; [|done].
  apply (option_loop_fuel (length its + 1)).
  - rewrite Hrun. rewrite option_loop_S by (rewrite Hi, length_app; cbn; lia).
    rewrite option_body_end; [done|]. rewrite Hi. by apply list_lookup_middle.
  - pose proof (items_bytes_length its enc Hok Henc). rewrite length_app. cbn. lia.
Qed.

Lemma decode_items_then_end_witness :
  ∃ enc st,
    items_bytes [Pad; Opt 53 [Byte.x01]; Opt 12 []; Opt 53 [Byte.x03]] = Ok enc ∧
    process_options (enc ++ Byte.xff :: [Byte.x07; Byte.x07]) = Ok st ∧
    entries (out st) = [(53, [Byte.x01]); (12, []); (53, [Byte.x03])] ∧
    opts st = store [(53, [Byte.x01]); (12, []); (53, [Byte.x03])] ∅.
Proof.
  apply (decode_items_then_end [Pad; Opt 53 [Byte.x01]; Opt 12 []; Opt 53 [Byte.x03]]
           [Byte.x07; Byte.x07]).
  repeat constructor; cbn; lia.
Defined.

(** X2: when the option area is cut off inside an option -- after the code
    byte, or with no more payload bytes than the length byte announces --
    the entries decoded before the cut are kept and no error is raised. *)
Theorem decode_items_then_truncated (its : list item) (code : byte) (tail : bytes) :
  Forall item_ok its →
  Byte.to_nat code ≠ 0 → Byte.to_nat code ≠ 255 →
  tail = [] ∨ (∃ lb partial, tail = lb :: partial ∧ length partial ≤ Byte.to_nat lb) →
  ∃ enc st,
    items_bytes its = Ok enc ∧
    process_options (enc ++ code :: tail) = Ok st ∧
    entries (out st) = omap item_entry its ∧
    opts st = store (omap item_entry its) ∅.
Proof.
  intros Hok H0 H255 Htail. destruct (items_bytes_Ok its Hok) as [enc Henc].
  destruct (option_loop_items its [] enc (code :: tail) (DState 0 ∅ []) 1)
    as (st & Hrun & Hi & Ho & He); [done..|].
  cbn [app length Nat.add opts out] in *.
  assert ((enc ++ code :: tail) !! idx st = Some code) as Hcode
    by (rewrite Hi; by apply list_lookup_middle).
  assert (∃ st', option_body (enc ++ code :: tail) st = Ok (Break, st') ∧
                 opts st' = opts st ∧ entries (out st') = entries (out st))
    as (st' & Hbody & Ho' & He').
  { unfold option_body. rewrite (getitem_Some _ _ _ Hcode). cbn [mbind py_bind].
    destruct (Nat.eqb_spec (Byte.to_nat code) 0); [done|].
    destruct (Nat.eqb_spec (Byte.to_nat code) 255); [done|].
    destruct Htail as [->|(lb & partial & -> & Hpartial)]; rewrite length_app; cbn [length].
    - destruct (Nat.leb_spec (length enc + 1) (idx st + 1)); [|lia].
      eexists. split; [done|]. cbn [opts out]. by rewrite entries_snoc_skip.
    - destruct (Nat.leb_spec (length enc + S (S (length partial))) (idx st + 1));
        [lia|].
      assert ((enc ++ code :: lb :: partial) !! (idx st + 1) = Some lb) as Hlb.
      { rewrite Hi, lookup_app_r by lia.
        by replace (length enc + 1 - length enc) with 1 by lia. }
      rewrite (getitem_Some _ _ _ Hlb). cbn [mbind py_bind].
      destruct (Nat.leb_spec (length enc + S (S (length partial)))
                  (idx st + 1 + 1 + Byte.to_nat lb)); [|lia].
      eexists. split; [done|]. cbn [opts out]. by rewrite entries_snoc_skip. }
  exists enc, st'. split; [done|]. rewrite Ho', He'. split; [|done].
  apply (option_loop_fuel (length its + 1)).
  - rewrite Hrun. rewrite option_loop_S by (rewrite Hi, length_app; cbn; lia).
    by rewrite Hbody.
  - pose proof (items_bytes_length its enc Hok Henc). rewrite length_app. cbn. lia.
Qed.

Lemma decode_items_then_truncated_witness :
  ∃ enc st,
    items_bytes [Opt 53 [Byte.x01]] = Ok enc ∧
    process_options (enc ++ Byte.x0c :: [Byte.x05; Byte.x61; Byte.x62]) = Ok st ∧
    entries (out st) = [(53, [Byte.x01])] ∧
    opts st = store [(53, [Byte.x01])] ∅.
Proof.
  apply (decode_items_then_truncated [Opt 53 [Byte.x01]] Byte.x0c
           [Byte.x05; Byte.x61; Byte.x62]).
  - repeat constructor; cbn; lia.
  - cbn. lia.
  - cbn. lia.
  - right. exists Byte.x05, [Byte.x61; Byte.x62]. split; [reflexivity|cbn; lia].
Defined.

(** ** The option builders *)

(** X3: [buildbyteoption] emits the code, the length and the payload
    exactly when the code and the payload length fit in a byte; otherwise
    the assignment into the bytearray raises ValueError. *)
Theorem buildbyteoption_fits (optnum : nat) (ba : bytes) :
  (optnum ≤ 255 ∧ length ba ≤ 255 →
   ∃ code lb, buildbyteoption optnum ba = Ok (code :: lb :: ba) ∧
              Byte.to_nat code = optnum ∧ Byte.to_nat lb = length ba) ∧
  (255 < optnum ∨ 255 < length ba → buildbyteoption optnum ba = Raise ValueError).
Proof.
  split.
  - intros [Hnum Hlen].
    destruct (Byte.of_nat optnum) as [code|] eqn:Hcode;
      [|apply Byte.of_nat_None_iff in Hcode; lia].
    destruct (Byte.of_nat (length ba)) as [lb|] eqn:Hlb;
      [|apply Byte.of_nat_None_iff in Hlb; lia].
    exists code, lb. split; [by apply buildbyteoption_Ok|]. split; by apply Byte.to_of_nat.
  - intros Hbig. unfold buildbyteoption, setitem. cbn [py_eq bytearray Nat.add replicate length].
    cbn [Nat.ltb Nat.leb mbind py_bind].
    destruct (Byte.of_nat optnum) as [code|] eqn:Hcode; [|done].
    cbn [mbind py_bind]. rewrite length_insert. cbn [length Nat.ltb Nat.leb].
    destruct (Byte.of_nat (length ba)) as [lb|] eqn:Hlb; [|done].
    apply Byte.to_of_nat in Hcode, Hlb.
    pose proof (Byte.to_nat_bounded code). pose proof (Byte.to_nat_bounded lb). lia.
Qed.

Lemma buildbyteoption_fits_witness :
  (∃ code lb, buildbyteoption 12 [Byte.x61] = Ok [code; lb; Byte.x61] ∧
              Byte.to_nat code = 12 ∧ Byte.to_nat lb = length [Byte.x61]) ∧
  buildbyteoption 12 (replicate 256 Byte.x00) = Raise ValueError.
Proof.
  split.
  - apply (buildbyteoption_fits 12 [Byte.x61]). cbn. lia.
  - apply (buildbyteoption_fits 12 (replicate 256 Byte.x00)). right.
    rewrite length_replicate. lia.
Defined.

(** X4: the fixed-length builders build what [buildbyteoption] builds for a
    payload of one and of four bytes. *)
Theorem fixed_builders_agree (optnum d1 d2 d3 d4 : nat) (x1 x2 x3 x4 : byte) :
  Byte.of_nat d1 = Some x1 → Byte.of_nat d2 = Some x2 →
  Byte.of_nat d3 = Some x3 → Byte.of_nat d4 = Some x4 →
  build1byteoption optnum d1 = buildbyteoption optnum [x1] ∧
  build4byteoption optnum d1 d2 d3 d4 = buildbyteoption optnum [x1; x2; x3; x4].
Proof.
  intros H1 H2 H3 H4.
  unfold build1byteoption, build4byteoption, buildbyteoption, setitem.
  cbn [py_eq bytearray replicate length Nat.add Nat.ltb Nat.leb].
  destruct (Byte.of_nat optnum) as [code|]; [|done].
  cbn. by rewrite H1, H2, H3, H4.
Qed.

Lemma fixed_builders_agree_witness :
  build1byteoption 51 0 = buildbyteoption 51 [Byte.x00] ∧
  build4byteoption 51 0 1 81 128 = buildbyteoption 51 [Byte.x00; Byte.x01; Byte.x51; Byte.x80].
Proof.
  apply (fixed_builders_agree 51 0 1 81 128 Byte.x00 Byte.x01 Byte.x51 Byte.x80); reflexivity.
Defined.

(** ** What the server sends *)

Section Server.

Implicit Types (cfg : config) (packet offer : bytes).

Lemma handle_Sent_inv cfg packet responsename offer :
  config_ok cfg → handle cfg packet = Ok (Sent responsename offer) →
  header_ok cfg packet ∧
  ∃ st t,
    process_options (slice_from packet 240) = Ok st ∧
    ((opts st !! 53 = Some [Byte.x01] ∧ responsename = "DHCPOFFER" ∧ t = Byte.x02) ∨
     (opts st !! 53 = Some [Byte.x03] ∧ responsename = "DHCPACK" ∧ t = Byte.x05)) ∧
    offer = reply_header cfg (slice packet 4 8) (slice packet 10 12) (slice packet 28 34) ++
            reply_options cfg t.
Proof.
  intros Hcfg Hsent.
  destruct (handle_header_bad cfg packet) as [[why Hwhy]|Hhdr]; [congruence|].
  split; [done|].
  destruct (option_loop_total (S (length (slice_from packet 240)))
              (slice_from packet 240) (DState 0 ∅ [])) as [st Hst]; [cbn; lia|].
  fold (process_options (slice_from packet 240)) in Hst.
  pose proof Hsent as Hsent'. rewrite handle_header_ok, Hst in Hsent' by done.
  cbn [mbind py_bind] in Hsent'.
  destruct (respond_other cfg (slice packet 4 8) (slice packet 10 12) (slice packet 28 34)
              (opts st)) as [[why Hwhy]|[Ho|Ho]]; [congruence|..].
  - exists st, Byte.x02.
    rewrite (handle_accept _ _ st [Byte.x01] Byte.x02 "DHCPOFFER") in Hsent by auto.
    injection Hsent as <- <-. split; [done|]. split; [|done]. by left.
  - exists st, Byte.x05.
    rewrite (handle_accept _ _ st [Byte.x03] Byte.x05 "DHCPACK") in Hsent by auto.
    injection Hsent as <- <-. split; [done|]. split; [|done]. by right.
Qed.

(** The reply seen as a packet, and its option area decoded. *)
Lemma reply_as_packet cfg transactionid flags thismacaddr t :
  config_ok cfg →
  length transactionid = 4 → length flags = 2 → length thismacaddr = 6 →
  let offer := reply_header cfg transactionid flags thismacaddr ++ reply_options cfg t in
  frame_ok offer ∧ cookie_ok offer ∧ slice offer 28 34 = thismacaddr ∧
  take 240 offer = reply_header cfg transactionid flags thismacaddr ∧
  process_options (slice_from offer 240) =
    Ok (DState 27
          (<[54 := baipbind cfg]> (<[51 := [Byte.x00; Byte.x01; Byte.x51; Byte.x80]]>
             (<[3 := bagateway cfg]>
             (<[1 := basubnet cfg]> {[ 53 := [t] ]}))))
          [OptionLine 53 1 [t]; OptionLine 1 4 (basubnet cfg);
           OptionLine 3 4 (bagateway cfg);
           OptionLine 51 4 [Byte.x00; Byte.x01; Byte.x51; Byte.x80];
           OptionLine 54 4 (baipbind cfg)]).
Proof.
  destruct cfg as [m b i s g]. unfold config_ok. cbn [baipbind baipaddr basubnet bagateway].
  intros (Hb & Hi & Hs & Hg) Ht Hf Hm.
  explode b. explode i. explode s. explode g.
  explode transactionid. explode flags. explode thismacaddr.
  cbv zeta. split; [|by repeat split].
  split; [vm_compute; lia|]. split; [by right|by split].
Qed.

(** X5: the option area of every reply, read by the program's own decoding
    loop, gives exactly the five options the reply is meant to carry. *)
Theorem reply_options_decode cfg packet (responsename : string) offer :
  config_ok cfg → handle cfg packet = Ok (Sent responsename offer) →
  ∃ st t,
    process_options (slice_from offer 240) = Ok st ∧
    (responsename = "DHCPOFFER" ∧ t = Byte.x02 ∨ responsename = "DHCPACK" ∧ t = Byte.x05) ∧
    opts st = <[54 := baipbind cfg]> (<[51 := [Byte.x00; Byte.x01; Byte.x51; Byte.x80]]>
                (<[3 := bagateway cfg]> (<[1 := basubnet cfg]> {[ 53 := [t] ]}))).
Proof.
  intros Hcfg Hsent.
  destruct (handle_Sent_inv _ _ _ _ Hcfg Hsent) as (((Hlen & _) & _) & st & t & _ & Ht & ->).
  destruct (reply_as_packet cfg (slice packet 4 8) (slice packet 10 12) (slice packet 28 34) t)
    as (_ & _ & _ & _ & Hdec); [done|rewrite length_slice; lia..|].
  eexists _, t. split; [exact Hdec|]. split; [|done].
  destruct Ht as [(_ & ? & ?)|(_ & ? & ?)]; auto.
Qed.

Lemma reply_options_decode_witness :
  ∃ st t,
    (∃ offer, handle Sample.cfg Sample.discover = Ok (Sent "DHCPOFFER" offer) ∧
              process_options (slice_from offer 240) = Ok st) ∧
    ("DHCPOFFER" = "DHCPOFFER" ∧ t = Byte.x02 ∨ "DHCPOFFER" = "DHCPACK" ∧ t = Byte.x05) ∧
    opts st !! 54 = Some (baipbind Sample.cfg).
Proof.
  destruct (reply_options_decode Sample.cfg Sample.discover "DHCPOFFER"
              (reply_header Sample.cfg (slice Sample.discover 4 8) (slice Sample.discover 10 12)
                 (slice Sample.discover 28 34) ++ reply_options Sample.cfg Byte.x02))
    as (st & t & Hdec & Ht & Ho); [by repeat split|reflexivity|].
  exists st, t. split; [eexists; split; [reflexivity|exact Hdec]|]. split; [exact Ht|].
  rewrite Ho. reflexivity.
Defined.

(** X6: the server does not answer its own replies: a reply fed back as a
    received packet passes the header checks (opcode 2 is admitted, the
    hardware address is the client's) and is dropped for its message type. *)
Theorem own_reply_is_ignored cfg packet (responsename : string) offer :
  config_ok cfg → handle cfg packet = Ok (Sent responsename offer) →
  handle cfg offer = Ok (Ignored MessageTypeNotSupported).
Proof.
  intros Hcfg Hsent.
  destruct (handle_Sent_inv _ _ _ _ Hcfg Hsent)
    as (((Hlen & _) & Hmac & _) & st & t & _ & Ht & ->).
  destruct (reply_as_packet cfg (slice packet 4 8) (slice packet 10 12) (slice packet 28 34) t)
    as (Hframe & Hcookie & Hhw & _ & Hdec); [done|rewrite length_slice; lia..|].
  rewrite handle_header_ok.
  - rewrite Hdec. cbn [mbind py_bind opts]. unfold respond, OPT_DHCP_MESSAGE_TYPE.
    rewrite !lookup_insert_ne, lookup_singleton_eq by done.
    by destruct Ht as [(_ & _ & ->)|(_ & _ & ->)].
  - split; [done|]. split; [|done]. unfold mac_matches. by rewrite Hhw.
Qed.

Lemma own_reply_is_ignored_witness :
  ∃ offer, handle Sample.cfg Sample.dhcprequest = Ok (Sent "DHCPACK" offer) ∧
           handle Sample.cfg offer = Ok (Ignored MessageTypeNotSupported).
Proof.
  eexists. split; [reflexivity|].
  apply (own_reply_is_ignored Sample.cfg Sample.dhcprequest "DHCPACK");
    [by repeat split|reflexivity].
Defined.

(** X7: with the configuration start-up leaves, no received packet makes
    the per-packet code raise: every packet is either dropped with a
    diagnostic or answered. *)
Theorem handle_never_raises cfg packet :
  config_ok cfg →
  (∃ why, handle cfg packet = Ok (Ignored why)) ∨
  (∃ responsename offer, handle cfg packet = Ok (Sent responsename offer)).
Proof.
  intros Hcfg.
  destruct (handle_header_bad cfg packet) as [|Hhdr]; [by left|].
  destruct (option_loop_total (S (length (slice_from packet 240)))
              (slice_from packet 240) (DState 0 ∅ [])) as [st Hst]; [cbn; lia|].
  fold (process_options (slice_from packet 240)) in Hst.
  destruct (respond_other cfg (slice packet 4 8) (slice packet 10 12) (slice packet 28 34)
              (opts st)) as [[why Hwhy]|[Ho|Ho]].
  - left. exists why. rewrite handle_header_ok, Hst by done. done.
  - right. eexists _, _.
    apply (handle_accept _ _ st [Byte.x01] Byte.x02 "DHCPOFFER"); auto.
  - right. eexists _, _.
    apply (handle_accept _ _ st [Byte.x03] Byte.x05 "DHCPACK"); auto.
Qed.

Lemma handle_never_raises_witness :
  (∃ why, handle Sample.cfg Sample.twice = Ok (Ignored why)) ∨
  (∃ responsename offer, handle Sample.cfg Sample.twice = Ok (Sent responsename offer)).
Proof. apply (handle_never_raises Sample.cfg Sample.twice). by repeat split. Defined.

(** X8: the server answers a packet exactly when the packet is at least 241
    bytes long, has opcode 1 or 2, hardware type 1, hardware address length
    6, the configured hardware address, the magic cookie, and a decoded
    message type option equal to the single byte 1 or 3. *)
Theorem answered_iff cfg packet :
  config_ok cfg →
  (∃ responsename offer, handle cfg packet = Ok (Sent responsename offer)) ↔
  header_ok cfg packet ∧
  ∃ st, process_options (slice_from packet 240) = Ok st ∧
        (opts st !! 53 = Some [Byte.x01] ∨ opts st !! 53 = Some [Byte.x03]).
Proof.
  intros Hcfg. split.
  - intros (responsename & offer & Hsent).
    destruct (handle_Sent_inv _ _ _ _ Hcfg Hsent) as (Hhdr & st & t & Hst & Ht & _).
    split; [done|]. exists st. split; [done|].
    destruct Ht as [(? & _)|(? & _)]; auto.
  - intros (Hhdr & st & Hst & [Ho|Ho]); eexists _, _.
    + apply (handle_accept _ _ st [Byte.x01] Byte.x02 "DHCPOFFER"); auto.
    + apply (handle_accept _ _ st [Byte.x03] Byte.x05 "DHCPACK"); auto.
Qed.

Lemma answered_iff_witness :
  (∃ responsename offer, handle Sample.cfg Sample.stranger = Ok (Sent responsename offer)) ↔
  header_ok Sample.cfg Sample.stranger ∧
  ∃ st, process_options (slice_from Sample.stranger 240) = Ok st ∧
        (opts st !! 53 = Some [Byte.x01] ∨ opts st !! 53 = Some [Byte.x03]).
Proof. apply (answered_iff Sample.cfg Sample.stranger). by repeat split. Defined.






(** X10: the fixed header of every reply: opcode 2, hardware type 1,
    address length 6, hops 0, the transaction id and the flags of the
    request, zero seconds, zero client and relay addresses, the offered
    address, the bind address as server address, the six bytes of the
    client's hardware address, zero server name and boot file, and the
    magic cookie. *)
Theorem reply_header_layout cfg packet (responsename : string) offer :
  config_ok cfg → handle cfg packet = Ok (Sent responsename offer) →
  take 240 offer =
    [Byte.x02; Byte.x01; Byte.x06; Byte.x00] ++ slice packet 4 8 ++
    [Byte.x00; Byte.x00] ++ slice packet 10 12 ++
    replicate 4 Byte.x00 ++ baipaddr cfg ++ baipbind cfg ++ replicate 4 Byte.x00 ++
    slice packet 28 34 ++ replicate 10 Byte.x00 ++
    replicate 64 Byte.x00 ++ replicate 128 Byte.x00 ++
    [Byte.x63; Byte.x82; Byte.x53; Byte.x63].
Proof.
  intros Hcfg Hsent.
  destruct (handle_Sent_inv _ _ _ _ Hcfg Hsent) as (((Hlen & _) & _) & st & t & _ & _ & ->).
  destruct (reply_as_packet cfg (slice packet 4 8) (slice packet 10 12) (slice packet 28 34) t)
    as (_ & _ & _ & -> & _); [done|rewrite length_slice; lia..|].
  unfold reply_header, magic. by do 8 f_equal.
Qed.

Lemma reply_header_layout_witness :
  ∃ offer,
    handle Sample.cfg Sample.discover = Ok (Sent "DHCPOFFER" offer) ∧
    take 240 offer =
      [Byte.x02; Byte.x01; Byte.x06; Byte.x00] ++ slice Sample.discover 4 8 ++
      [Byte.x00; Byte.x00] ++ slice Sample.discover 10 12 ++
      replicate 4 Byte.x00 ++ baipaddr Sample.cfg ++ baipbind Sample.cfg ++
      replicate 4 Byte.x00 ++
      slice Sample.discover 28 34 ++ replicate 10 Byte.x00 ++
      replicate 64 Byte.x00 ++ replicate 128 Byte.x00 ++
      [Byte.x63; Byte.x82; Byte.x53; Byte.x63].
Proof.
  eexists. split; [reflexivity|].
  apply (reply_header_layout Sample.cfg Sample.discover "DHCPOFFER");
    [by repeat split|reflexivity].
Defined.

End Server.

(** ** Requests with a terminated option area *)

(** An option area of well-formed items closed by the END byte is decoded
    into the dictionary that stores the items in turn. *)
Lemma process_options_terminated (its : list item) (enc junk : bytes) :
  Forall item_ok its → items_bytes its = Ok enc →
  ∃ st, process_options (enc ++ Byte.xff :: junk) = Ok st ∧
        opts st = store (omap item_entry its) ∅.
Proof.
  intros Hok Henc.
  destruct (option_loop_items its [] enc (Byte.xff :: junk) (DState 0 ∅ []) 1)
    as (st & Hrun & Hi & Ho & _); [done..|].
  exists st. cbn [app length Nat.add opts] in *. split; [|done].
  apply (option_loop_fuel (length its + 1)).
  - rewrite Hrun. rewrite option_loop_S by (rewrite Hi, length_app; cbn; lia).
    rewrite option_body_end; [done|]. rewrite Hi. by apply list_lookup_middle.
  - pose proof (items_bytes_length its enc Hok Henc). rewrite length_app. cbn. lia.
Qed.

(** X23: a packet of the configured host with a good header whose option
    area is a sequence of PAD bytes and options (codes 1..254) closed by the
    END byte, and whose last option 53 carries the single byte 1, is
    answered with a DHCPOFFER: opcode 2, the transaction id of the request,
    and the options 53 = 2, 1 = subnet mask, 3 = gateway, 51 = 0,1,81,128,
    54 = bind address, and END, in this order. *)
Theorem terminated_discover_gets_offer (cfg : config) (packet : bytes) (its : list item)
    (enc junk : bytes) :
  config_ok cfg → header_ok cfg packet →
  Forall item_ok its → items_bytes its = Ok enc →
  slice_from packet 240 = enc ++ Byte.xff :: junk →
  store (omap item_entry its) ∅ !! 53 = Some [Byte.x01] →
  ∃ offer,
    handle cfg packet = Ok (Sent "DHCPOFFER" offer) ∧
    offer !! 0 = Some Byte.x02 ∧
    slice offer 4 8 = slice packet 4 8 ∧
    slice_from offer 240 =
      [Byte.x35; Byte.x01; Byte.x02] ++
      [Byte.x01; Byte.x04] ++ basubnet cfg ++
      [Byte.x03; Byte.x04] ++ bagateway cfg ++
      [Byte.x33; Byte.x04; Byte.x00; Byte.x01; Byte.x51; Byte.x80] ++
      [Byte.x36; Byte.x04] ++ baipbind cfg ++
      [Byte.xff].
Proof.
  intros Hcfg Hhdr Hok Henc Harea Htype.
  destruct (process_options_terminated its enc junk Hok Henc) as (st & Hst & Ho).
  pose proof Hhdr as ((Hlen & _) & _).
  rewrite <- Harea in Hst. rewrite <- Ho in Htype.
  eexists. split.
  - apply (handle_accept cfg packet st [Byte.x01] Byte.x02); try done. by left.
  - destruct (reply_shape cfg (slice packet 4 8) (slice packet 10 12) (slice packet 28 34)
                Byte.x02) as (_ & H0 & Hxid & Hoptions & _);
      [done|rewrite length_slice; lia..|].
    by repeat split.
Qed.

Lemma terminated_discover_gets_offer_witness :
  ∃ offer,
    handle Sample.cfg Sample.twice_reversed = Ok (Sent "DHCPOFFER" offer) ∧
    offer !! 0 = Some Byte.x02 ∧
    slice offer 4 8 = slice Sample.twice_reversed 4 8 ∧
    slice_from offer 240 =
      [Byte.x35; Byte.x01; Byte.x02] ++
      [Byte.x01; Byte.x04] ++ basubnet Sample.cfg ++
      [Byte.x03; Byte.x04] ++ bagateway Sample.cfg ++
      [Byte.x33; Byte.x04; Byte.x00; Byte.x01; Byte.x51; Byte.x80] ++
      [Byte.x36; Byte.x04] ++ baipbind Sample.cfg ++
      [Byte.xff].
Proof.
  apply (terminated_discover_gets_offer Sample.cfg Sample.twice_reversed
           [Pad; Opt 53 [Byte.x03]; Opt 12 []; Opt 53 [Byte.x01]]
           [Byte.x00; Byte.x35; Byte.x01; Byte.x03; Byte.x0c; Byte.x00;
            Byte.x35; Byte.x01; Byte.x01]
           [Byte.x07]).
  - by repeat split.
  - apply sample_header_ok. cbn. lia.
  - repeat constructor; cbn; lia.
  - reflexivity.
  - reflexivity.
  - reflexivity.
Defined.

(** X24: two packets of the configured host with the same good 240-byte
    header and option areas closed by the END byte, one with the byte 1 and
    one with the byte 3 in its last option 53, get replies of the same
    length that agree in every byte but the one at index 242, the value of
    option 53: 2 in the DHCPOFFER and 5 in the DHCPACK. *)
Theorem terminated_pair_differs_in_one_byte (cfg : config) (p1 p2 : bytes)
    (its1 its2 : list item) (enc1 enc2 junk1 junk2 : bytes) :
  config_ok cfg →
  header_ok cfg p1 → header_ok cfg p2 →
  take 240 p1 = take 240 p2 →
  Forall item_ok its1 → items_bytes its1 = Ok enc1 →
  slice_from p1 240 = enc1 ++ Byte.xff :: junk1 →
  store (omap item_entry its1) ∅ !! 53 = Some [Byte.x01] →
  Forall item_ok its2 → items_bytes its2 = Ok enc2 →
  slice_from p2 240 = enc2 ++ Byte.xff :: junk2 →
  store (omap item_entry its2) ∅ !! 53 = Some [Byte.x03] →
  ∃ offer ack,
    handle cfg p1 = Ok (Sent "DHCPOFFER" offer) ∧
    handle cfg p2 = Ok (Sent "DHCPACK" ack) ∧
    length offer = length ack ∧
    offer !! 242 = Some Byte.x02 ∧ ack !! 242 = Some Byte.x05 ∧
    ∀ i, i ≠ 242 → offer !! i = ack !! i.
Proof.
  intros Hcfg Hh1 Hh2 Hsame Hok1 Henc1 Harea1 Ht1 Hok2 Henc2 Harea2 Ht2.
  destruct (process_options_terminated its1 enc1 junk1 Hok1 Henc1) as (st1 & Hst1 & Ho1).
  destruct (process_options_terminated its2 enc2 junk2 Hok2 Henc2) as (st2 & Hst2 & Ho2).
  rewrite <- Harea1 in Hst1. rewrite <- Harea2 in Hst2.
  rewrite <- Ho1 in Ht1. rewrite <- Ho2 in Ht2.
  assert (∀ lo hi, lo ≤ hi → hi ≤ 240 → slice p2 lo hi = slice p1 lo hi) as Hslice.
  { intros lo hi ? ?. by rewrite <- (slice_take p2 240), <- (slice_take p1 240), Hsame. }
  pose proof Hh1 as ((Hlen1 & _) & _).
  destruct (reply_shape cfg (slice p1 4 8) (slice p1 10 12) (slice p1 28 34) Byte.x02)
    as (Hlen & _ & _ & _ & H242 & Hset); [done|rewrite length_slice; lia..|].
  eexists _, (<[242 := Byte.x05]> _). split; [|split].
  - apply (handle_accept cfg p1 st1 [Byte.x01] Byte.x02); try done. by left.
  - rewrite Hset, <- !Hslice by lia.
    apply (handle_accept cfg p2 st2 [Byte.x03] Byte.x05); try done. by right.
  - split; [by rewrite length_insert|]. split; [done|]. split.
    + apply list_lookup_insert_eq. lia.
    + intros i Hi. by rewrite list_lookup_insert_ne.
Qed.

Lemma terminated_pair_differs_in_one_byte_witness :
  ∃ offer ack,
    handle Sample.cfg Sample.discover = Ok (Sent "DHCPOFFER" offer) ∧
    handle Sample.cfg Sample.dhcprequest = Ok (Sent "DHCPACK" ack) ∧
    length offer = length ack ∧
    offer !! 242 = Some Byte.x02 ∧ ack !! 242 = Some Byte.x05 ∧
    ∀ i, i ≠ 242 → offer !! i = ack !! i.
Proof.
  apply (terminated_pair_differs_in_one_byte Sample.cfg Sample.discover Sample.dhcprequest
           [Opt 53 [Byte.x01]] [Opt 53 [Byte.x03]]
           [Byte.x35; Byte.x01; Byte.x01] [Byte.x35; Byte.x01; Byte.x03] [] []).
  - by repeat split.
  - apply sample_header_ok. cbn. lia.
  - apply sample_header_ok. cbn. lia.
  - reflexivity.
  - repeat constructor; cbn; lia.
  - reflexivity.
  - reflexivity.
  - reflexivity.
  - repeat constructor; cbn; lia.
  - reflexivity.
  - reflexivity.
  - reflexivity.
Defined.

(** ** The hardware address filter *)

Section MacFilter.

Implicit Types (cfg : config) (packet m : bytes).

Lemma readablemacaddress_inj (a b : bytes) :
  length a = 6 → length b = 6 → readablemacaddress a = readablemacaddress b → a = b.
Proof.
  intros Ha Hb. explode a. explode b.
  unfold readablemacaddress. cbn [length Nat.eqb negb macloop Nat.ltb Nat.leb].
  unfold fmt02X. cbv [String.append]. intros H.
  repeat f_equal; apply fmt02X_inj; unfold fmt02X; cbv zeta; congruence.
Qed.

(** X11: when the configured MAC string is the printed form of a 6-byte
    address, only packets carrying exactly that address in bytes 28..33 are
    answered, and the reply carries it in the same place. *)
Theorem mac_filter_exact cfg packet m (responsename : string) (offer : bytes) :
  config_ok cfg → length m = 6 → macaddr cfg = readablemacaddress m →
  handle cfg packet = Ok (Sent responsename offer) →
  slice packet 28 34 = m ∧ slice offer 28 34 = m.
Proof.
  intros Hcfg Hm Hmac Hsent.
  destruct (handle_Sent_inv _ _ _ _ Hcfg Hsent)
    as (((Hlen & _) & Hmatch & _) & st & t & _ & _ & ->).
  destruct (reply_as_packet cfg (slice packet 4 8) (slice packet 10 12) (slice packet 28 34) t)
    as (_ & _ & -> & _); [done|rewrite length_slice; lia..|].
  assert (slice packet 28 34 = m) as Heq; [|by rewrite Heq].
  apply readablemacaddress_inj; [rewrite length_slice; lia|done|].
  unfold mac_matches in Hmatch. congruence.
Qed.

Lemma mac_filter_exact_witness :
  ∃ offer, handle Sample.cfg Sample.discover = Ok (Sent "DHCPOFFER" offer) ∧
           slice Sample.discover 28 34 = Sample.mac ∧ slice offer 28 34 = Sample.mac.
Proof.
  eexists. split; [reflexivity|].
  apply (mac_filter_exact Sample.cfg Sample.discover Sample.mac "DHCPOFFER");
    [by repeat split|reflexivity|reflexivity|reflexivity].
Defined.

(** X12: a configured MAC string that is not the printed form of any 6-byte
    address (colon-separated two-digit upper-case hexadecimal) matches no
    packet: every packet is dropped. *)
Theorem unprintable_mac_serves_nobody cfg packet :
  (∀ m, length m = 6 → readablemacaddress m ≠ macaddr cfg) →
  ∃ why, handle cfg packet = Ok (Ignored why).
Proof.
  intros Hnone.
  destruct (handle_header_bad cfg packet) as [|((Hlen & _) & Hmac & _)]; [done|].
  destruct (Hnone (slice packet 28 34)); [rewrite length_slice; lia|done].
Qed.

Lemma unprintable_mac_serves_nobody_witness :
  ∃ why,
    handle (Config "00-11-22-33-44-55" (baipbind Sample.cfg) (baipaddr Sample.cfg)
              (basubnet Sample.cfg) (bagateway Sample.cfg)) Sample.discover =
    Ok (Ignored why).
Proof.
  apply unprintable_mac_serves_nobody. intros m Hm. explode m.
  unfold readablemacaddress. cbn [length Nat.eqb negb macloop Nat.ltb Nat.leb macaddr].
  unfold fmt02X. cbv [String.append]. intros H. discriminate H.
Defined.

End MacFilter.

(** ** showoptions *)

Section ShowOptions.

Implicit Types (b : bytes) (st : dstate).

Lemma no_warning_last_snoc (ls : list line) (l : line) :
  no_warning_last (ls ++ [l]) ↔
  match l with WarnNoLength _ | WarnNoData _ _ => False | _ => True end.
Proof. unfold no_warning_last. by rewrite last_snoc. Qed.

(** One pass of the two loops side by side; [tail] is what [showoptions]
    prints and the main loop does not. *)
Lemma show_body_sim b st c st' :
  option_body b st = Ok (c, st') → no_warning_last (out st) →
  ∃ tail,
    show_body b (idx st, shown_of <$> out st) = Ok (c, (idx st', (shown_of <$> out st') ++ tail)) ∧
    (c = Continue ∧ tail = [] ∧ no_warning_last (out st') ∨
     c = Break ∧ tail = [ShowEnd] ∧ stopped_at_END b st' ∨
     c = Break ∧ tail = [] ∧ ¬ no_warning_last (out st')).
Proof.
  unfold option_body, show_body. intros Hbody Hlast. revert Hbody.
  destruct (b !! idx st) as [x|] eqn:Hx;
    [rewrite (getitem_Some _ _ _ Hx)|unfold getitem; rewrite Hx];
    cbn [mbind py_bind]; [|done].
  destruct (Byte.to_nat x =? 0).
  { intros [= <- <-]. exists []. cbn [idx out]. rewrite fmap_app, app_nil_r.
    split; [done|]. left. split; [done|]. split; [done|]. rewrite no_warning_last_snoc; cbn; tauto. }
  destruct (Nat.eqb_spec (Byte.to_nat x) 255) as [H255|].
  { intros [= <- <-]. exists [ShowEnd]. split; [done|]. right. left.
    split; [done|]. split; [done|]. split; [|done].
    rewrite Hx. f_equal. apply (to_nat_inj x 255); [exact H255|reflexivity]. }
  destruct (length b <=? idx st + 1).
  { intros [= <- <-]. exists []. cbn [idx out]. rewrite fmap_app, app_nil_r.
    split; [done|]. right. right. split; [done|]. split; [done|].
    rewrite no_warning_last_snoc; cbn; tauto. }
  destruct (getitem b (idx st + 1)) as [optlen| |]; cbn [mbind py_bind]; try done.
  destruct (length b <=? idx st + 1 + 1 + optlen);
    intros [= <- <-]; exists []; cbn [idx out]; rewrite fmap_app, app_nil_r;
    (split; [done|]); [right; right|left]; (split; [done|]); (split; [done|]);
    rewrite no_warning_last_snoc; cbn; tauto.
Qed.

Lemma show_loop_sim fuel b st st' :
  option_loop fuel b st = Ok st' → no_warning_last (out st) →
  ∃ tail, show_loop fuel b (idx st, shown_of <$> out st) = Ok ((shown_of <$> out st') ++ tail) ∧
          (tail = [ShowEnd] ∧ stopped_at_END b st' ∨ tail = [] ∧ ¬ stopped_at_END b st').
Proof.
  revert st. induction fuel as [|fuel IH]; intros st; [done|].
  cbn [option_loop show_loop fst].
  destruct (Nat.ltb_spec (idx st) (length b)) as [|Hout].
  - destruct (option_body b st) as [[c st'']| |] eqn:Hbody; cbn [mbind py_bind]; try done.
    intros Hrun Hlast.
    destruct (show_body_sim _ _ _ _ Hbody Hlast)
      as (tail & -> & [(-> & -> & Hlast')|[(-> & -> & Hend)|(-> & -> & Hwarn)]]);
      cbn [mbind py_bind].
    + rewrite app_nil_r. by apply IH.
    + injection Hrun as <-. exists [ShowEnd]. auto.
    + injection Hrun as <-. exists []. split; [done|]. right. split; [done|].
      by intros [_ ?].
  - intros [= <-] _. exists []. rewrite app_nil_r. split; [done|]. right. split; [done|].
    intros [Hx _]. apply lookup_lt_Some in Hx. lia.
Qed.

(** X13: [showoptions] walks an option area exactly as the main loop does:
    it prints the same PAD, option and warning lines in the same order, and
    after them [END] exactly when the scan stops at the END byte. *)
Theorem showoptions_follows_main_loop b :
  ∃ st,
    process_options b = Ok st ∧
    (stopped_at_END b st ∧ showoptions b = Ok ((shown_of <$> out st) ++ [ShowEnd]) ∨
     ¬ stopped_at_END b st ∧ showoptions b = Ok (shown_of <$> out st)).
Proof.
  destruct (option_loop_total (S (length b)) b (DState 0 ∅ [])) as [st Hst]; [cbn; lia|].
  destruct (show_loop_sim _ _ _ _ Hst) as (tail & Hshow & [[-> Hend]|[-> Hend]]); [done|..].
  - exists st. split; [done|]. by left.
  - exists st. split; [done|]. right. split; [done|]. by rewrite app_nil_r in Hshow.
Qed.

End ShowOptions.

(** ** ip2bytearray *)

Section Addresses.

Variable isdigit : string → bool.
Variable int : string → py nat.

(** What is used of the two builtins: a non-empty string of ASCII decimal
    digits passes [isdigit], and [int] gives its value when it has at most
    4300 digits (CPython's default limit; earlier versions have none);
    [int] of a string raises nothing but ValueError. *)
Hypothesis isdigit_decimal :
  ∀ o, String.length o ≠ 0 → all_chars is_decimal o = true → isdigit o = true.
Hypothesis int_decimal :
  ∀ o, String.length o ≠ 0 → String.length o ≤ 4300 → all_chars is_decimal o = true →
       int o = Ok (decimal_value 0 o).
Hypothesis int_ValueError : ∀ o, (∃ n, int o = Ok n) ∨ int o = Raise ValueError.

Implicit Types (s o : string) (octets : list string) (ba : bytes).

Lemma split_nonnil sep s : split sep s ≠ [].
Proof. destruct s as [|c s]; cbn [split]; [done|]. by destruct (Ascii.eqb c sep), (split sep s). Qed.

Lemma decimal_not_dot (c : ascii) : is_decimal c = true → Ascii.eqb c "." = false.
Proof.
  intros Hc. destruct (Ascii.eqb_spec c ".") as [->|]; [|done].
  by vm_compute in Hc.
Qed.

Lemma split_decimal o : all_chars is_decimal o = true → split "." o = [o].
Proof.
  induction o as [|c o IH]; cbn [all_chars split]; [done|].
  intros [Hc Ho]%andb_prop. by rewrite (decimal_not_dot c Hc), IH.
Qed.

Lemma split_decimal_cons o s :
  all_chars is_decimal o = true → split "." (o +:+ String "." s) = o :: split "." s.
Proof.
  induction o as [|c o IH]; cbn [all_chars]; [done|].
  intros [Hc Ho]%andb_prop.
  change (String c o +:+ String "." s) with (String c (o +:+ String "." s)).
  cbn [split]. by rewrite (decimal_not_dot c Hc), IH.
Qed.

(** A string with a separator is its first field, the separator and the
    string of the other fields. *)
Lemma split_cons_inv sep s o o' octets :
  split sep s = o :: o' :: octets →
  ∃ s', s = o +:+ String sep s' ∧ split sep s' = o' :: octets.
Proof.
  revert o. induction s as [|c s IH]; intros o; cbn [split]; [done|].
  destruct (Ascii.eqb_spec c sep) as [->|].
  - intros [= <- Hs]. by exists s.
  - destruct (split sep s) as [|o1 os] eqn:Hs; [done|].
    intros [= <- ->]. destruct (IH o1 eq_refl) as (s' & -> & Hs').
    by exists s'.
Qed.

Lemma split_singleton_inv sep s o : split sep s = [o] → s = o.
Proof.
  revert o. induction s as [|c s IH]; intros o; cbn [split]; [by intros [= <-]|].
  destruct (Ascii.eqb c sep).
  - intros [= _ Hs]. by destruct (split_nonnil sep s).
  - destruct (split sep s) as [|o1 os] eqn:Hs; [by destruct (split_nonnil sep s)|].
    intros [= <- ->]. by rewrite (IH o1).
Qed.

(** One pass of the loop on a good octet. *)
Lemma octet_loop_step todo i octets ba o x :
  octets !! i = Some o → octet o x → i < length ba →
  octet_loop isdigit int (S todo) i octets ba =
    octet_loop isdigit int todo (i + 1) octets (<[i:=x]> ba).
Proof.
  intros Ho (Hlen & Hmax & Hdec & Hx) Hi. cbn [octet_loop]. rewrite Ho.
  destruct (Nat.eqb_spec (String.length o) 0); [done|].
  rewrite isdigit_decimal, int_decimal by done. cbn [negb mbind py_bind].
  apply Byte.to_of_nat in Hx as Hv. pose proof (Byte.to_nat_bounded x).
  destruct (Nat.ltb_spec (decimal_value 0 o) 0); [lia|].
  destruct (Nat.ltb_spec 255 (decimal_value 0 o)); [lia|].
  by rewrite (setitem_Ok _ _ _ x).
Qed.

(** A pass that does not end the loop with a message was on a field that
    passed the checks. *)
Lemma octet_loop_OK_inv todo i octets ba ba' :
  octet_loop isdigit int (S todo) i octets ba = Ok ("OK", ba') →
  ∃ o n x, octets !! i = Some o ∧ field isdigit int o n ∧ Byte.to_nat x = n ∧
           octet_loop isdigit int todo (i + 1) octets (<[i:=x]> ba) = Ok ("OK", ba').
Proof.
  cbn [octet_loop]. destruct (octets !! i) as [o|]; [|done].
  destruct (Nat.eqb_spec (String.length o) 0) as [|Hne]; [done|].
  destruct (isdigit o) eqn:Hdigit; cbn [negb]; [|done].
  destruct (int o) as [v| |] eqn:Hint; cbn [mbind py_bind]; try done.
  destruct (Nat.ltb_spec v 0); [done|].
  destruct (Nat.ltb_spec 255 v); [done|].
  unfold setitem. destruct (i <? length ba); [|done].
  destruct (Byte.of_nat v) as [x|] eqn:Hx; [|done].
  cbn [mbind py_bind]. intros Hrun. exists o, v, x.
  split; [done|]. split; [by repeat split|]. split; [by apply Byte.to_of_nat|done].
Qed.

(** X14: a dotted quad of four non-empty strings of ASCII decimal digits,
    each of at most 4300 digits and with a value of at most 255 (leading
    zeros allowed), is accepted with the message OK and gives the four
    values as bytes. *)
Theorem ip2bytearray_dotted (o1 o2 o3 o4 : string) (x1 x2 x3 x4 : byte) :
  octet o1 x1 → octet o2 x2 → octet o3 x3 → octet o4 x4 →
  ip2bytearray isdigit int (o1 +:+ "." +:+ o2 +:+ "." +:+ o3 +:+ "." +:+ o4) =
    Ok ("OK", [x1; x2; x3; x4]).
Proof.
  intros H1 H2 H3 H4. unfold ip2bytearray.
  change ("." +:+ o4) with (String "."%char o4).
  change ("." +:+ o3 +:+ ?s) with (String "."%char (o3 +:+ s)).
  change ("." +:+ o2 +:+ ?s) with (String "."%char (o2 +:+ s)).
  rewrite (split_decimal_cons o1), (split_decimal_cons o2), (split_decimal_cons o3),
    (split_decimal o4) by (apply H1 || apply H2 || apply H3 || apply H4).
  cbn [length Nat.ltb Nat.leb].
  rewrite (octet_loop_step 3 0 _ _ o1 x1), (octet_loop_step 2 1 _ _ o2 x2),
    (octet_loop_step 1 2 _ _ o3 x3), (octet_loop_step 0 3 _ _ o4 x4);
    try done; cbn; lia.
Qed.

(** X15: whatever [ip2bytearray] accepts with the message OK consists of
    exactly four fields separated by dots, each non-empty, passing
    [isdigit()] and with an [int()] value of at most 255, and the bytearray
    holds these four values. *)
Theorem ip2bytearray_OK_inv s ba :
  ip2bytearray isdigit int s = Ok ("OK", ba) →
  ∃ o1 o2 o3 o4 n1 n2 n3 n4,
    s = o1 +:+ "." +:+ o2 +:+ "." +:+ o3 +:+ "." +:+ o4 ∧
    split "." s = [o1; o2; o3; o4] ∧
    field isdigit int o1 n1 ∧ field isdigit int o2 n2 ∧
    field isdigit int o3 n3 ∧ field isdigit int o4 n4 ∧
    Byte.to_nat <$> ba = [n1; n2; n3; n4].
Proof.
  unfold ip2bytearray.
  destruct (Nat.ltb_spec (length (split "." s)) 4); [done|].
  destruct (Nat.ltb_spec 4 (length (split "." s))); [done|].
  destruct (split "." s) as [|o1 [|o2 [|o3 [|o4 [|]]]]] eqn:Hsplit; cbn [length] in *; try lia.
  intros Hrun.
  assert (s = o1 +:+ "." +:+ o2 +:+ "." +:+ o3 +:+ "." +:+ o4) as Hs.
  { apply split_cons_inv in Hsplit as (s1 & -> & Hsplit).
    apply split_cons_inv in Hsplit as (s2 & -> & Hsplit).
    apply split_cons_inv in Hsplit as (s3 & -> & Hsplit).
    by apply split_singleton_inv in Hsplit as ->. }
  apply octet_loop_OK_inv in Hrun as (? & n1 & x1 & [= <-] & H1 & Hx1 & Hrun).
  apply octet_loop_OK_inv in Hrun as (? & n2 & x2 & [= <-] & H2 & Hx2 & Hrun).
  apply octet_loop_OK_inv in Hrun as (? & n3 & x3 & [= <-] & H3 & Hx3 & Hrun).
  apply octet_loop_OK_inv in Hrun as (? & n4 & x4 & [= <-] & H4 & Hx4 & Hrun).
  injection Hrun as <-.
  exists o1, o2, o3, o4, n1, n2, n3, n4.
  repeat (split; [done|]). by rewrite <- Hx1, <- Hx2, <- Hx3, <- Hx4.
Qed.

(** The loop never changes the length of the bytearray. *)
Lemma octet_loop_length todo i octets ba msg ba' :
  octet_loop isdigit int todo i octets ba = Ok (msg, ba') → length ba' = length ba.
Proof.
  revert i ba. induction todo as [|todo IH]; intros i ba; cbn [octet_loop]; [by intros [= _ <-]|].
  destruct (octets !! i) as [o|]; [|done].
  destruct (String.length o =? 0); [by intros [= _ <-]|].
  destruct (isdigit o); cbn [negb]; [|by intros [= _ <-]].
  destruct (int o) as [n| |]; cbn [mbind py_bind]; try done.
  destruct (n <? 0); [by intros [= _ <-]|].
  destruct (255 <? n); [by intros [= _ <-]|].
  unfold setitem. destruct (i <? length ba); [|done].
  destruct (Byte.of_nat n) as [x|]; [|done]. cbn [mbind py_bind].
  intros Hrun%IH. by rewrite length_insert in Hrun.
Qed.

Lemma ip2bytearray_length s msg ba :
  ip2bytearray isdigit int s = Ok (msg, ba) → length ba = 4.
Proof.
  unfold ip2bytearray.
  destruct (length (split "." s) <? 4); [by intros [= _ <-]|].
  destruct (4 <? length (split "." s)); [by intros [= _ <-]|].
  by intros Hrun%octet_loop_length.
Qed.

(** The loop raises nothing but the ValueError of [int]. *)
Lemma octet_loop_ends todo i octets ba :
  i + todo ≤ length octets → i + todo ≤ length ba →
  (∃ msg ba', octet_loop isdigit int todo i octets ba = Ok (msg, ba')) ∨
  octet_loop isdigit int todo i octets ba = Raise ValueError.
Proof.
  revert i ba. induction todo as [|todo IH]; intros i ba Ho Hb; [left; by eexists _, _|].
  cbn [octet_loop].
  destruct (lookup_lt_is_Some_2 octets i) as [o ->]; [lia|].
  destruct (String.length o =? 0); [left; by eexists _, _|].
  destruct (isdigit o); cbn [negb]; [|left; by eexists _, _].
  destruct (int_ValueError o) as [[n ->]| ->]; cbn [mbind py_bind]; [|by right].
  destruct (n <? 0); [left; by eexists _, _|].
  destruct (Nat.ltb_spec 255 n); [left; by eexists _, _|].
  destruct (Byte.of_nat n) as [x|] eqn:Hx; [|apply Byte.of_nat_None_iff in Hx; lia].
  rewrite (setitem_Ok _ _ _ x) by (done || lia). cbn [mbind py_bind].
  apply IH; [lia|rewrite length_insert; lia].
Qed.

(** X16: an address whose first of four fields is not empty and passes
    [isdigit()] but is rejected by [int()] (a superscript digit, or more
    digits than the limit) makes [ip2bytearray] raise ValueError instead of
    returning a message. *)
Theorem ip2bytearray_int_raises s o octets :
  split "." s = o :: octets → length octets = 3 →
  String.length o ≠ 0 → isdigit o = true → int o = Raise ValueError →
  ip2bytearray isdigit int s = Raise ValueError.
Proof.
  intros Hsplit Hlen Hne Hdigit Hint. unfold ip2bytearray. rewrite Hsplit. cbn [length].
  rewrite Hlen. cbn [Nat.ltb Nat.leb octet_loop lookup list_lookup].
  destruct (Nat.eqb_spec (String.length o) 0); [done|].
  by rewrite Hdigit, Hint.
Qed.

(** X17: [ip2bytearray] always ends: it returns a message and a bytearray
    of exactly four bytes, or raises the ValueError of [int]; it never
    indexes outside the list of fields or the bytearray. *)
Theorem ip2bytearray_ends s :
  (∃ msg ba, ip2bytearray isdigit int s = Ok (msg, ba) ∧ length ba = 4) ∨
  ip2bytearray isdigit int s = Raise ValueError.
Proof.
  destruct (ip2bytearray isdigit int s) as [[msg ba]|e|] eqn:Hrun.
  - left. exists msg, ba. split; [done|]. by eapply ip2bytearray_length.
  - right. revert Hrun. unfold ip2bytearray.
    destruct (Nat.ltb_spec (length (split "." s)) 4); [done|].
    destruct (Nat.ltb_spec 4 (length (split "." s))); [done|].
    destruct (octet_loop_ends 4 0 (split "." s) (bytearray 4)) as [(? & ? & Hloop)|Hloop];
      [lia|cbn; lia|..]; rewrite Hloop; [done|by intros [= <-]].
  - exfalso. revert Hrun. unfold ip2bytearray.
    destruct (Nat.ltb_spec (length (split "." s)) 4); [done|].
    destruct (Nat.ltb_spec 4 (length (split "." s))); [done|].
    by destruct (octet_loop_ends 4 0 (split "." s) (bytearray 4)) as [(? & ? & Hloop)|Hloop];
      [lia|cbn; lia|..]; rewrite Hloop.
Qed.

Lemma ip2bytearray_cases s :
  match ip2bytearray isdigit int s with
  | Ok _ => True
  | Raise e => e = ValueError
  | OutOfFuel => False
  end.
Proof.
  unfold ip2bytearray.
  destruct (Nat.ltb_spec (length (split "." s)) 4); [done|].
  destruct (Nat.ltb_spec 4 (length (split "." s))); [done|].
  by destruct (octet_loop_ends 4 0 (split "." s) (bytearray 4)) as [(? & ? & Hrun)|Hrun];
    [lia|cbn; lia|..]; rewrite Hrun.
Qed.

End Addresses.

(** The builtins on ASCII strings have the three properties. *)
Lemma OnAscii_isdigit_decimal o :
  String.length o ≠ 0 → all_chars is_decimal o = true → OnAscii.isdigit o = true.
Proof.
  intros Hlen Hdec. unfold OnAscii.isdigit. rewrite Hdec.
  by destruct (Nat.eqb_spec (String.length o) 0).
Qed.

Lemma OnAscii_int_decimal o :
  String.length o ≠ 0 → String.length o ≤ 4300 → all_chars is_decimal o = true →
  OnAscii.int o = Ok (decimal_value 0 o).
Proof.
  intros Hlen Hmax Hdec. unfold OnAscii.int. rewrite OnAscii_isdigit_decimal by done.
  by destruct (Nat.leb_spec (String.length o) 4300); [|lia].
Qed.

Lemma OnAscii_int_ValueError o :
  (∃ n, OnAscii.int o = Ok n) ∨ OnAscii.int o = Raise ValueError.
Proof. unfold OnAscii.int. destruct (_ && _); [left; by eexists|by right]. Qed.

Lemma ip2bytearray_dotted_witness :
  ip2bytearray OnAscii.isdigit OnAscii.int
    ("192" +:+ "." +:+ "168" +:+ "." +:+ "002" +:+ "." +:+ "53") =
    Ok ("OK", [Byte.xc0; Byte.xa8; Byte.x02; Byte.x35]).
Proof.
  apply (ip2bytearray_dotted OnAscii.isdigit OnAscii.int
           OnAscii_isdigit_decimal OnAscii_int_decimal "192" "168" "002" "53");
    (split; [by cbn|split; [cbn; lia|by split]]).
Defined.

Lemma ip2bytearray_OK_inv_witness :
  ∃ o1 o2 o3 o4 n1 n2 n3 n4,
    "10.0.0.1" = o1 +:+ "." +:+ o2 +:+ "." +:+ o3 +:+ "." +:+ o4 ∧
    split "." "10.0.0.1" = [o1; o2; o3; o4] ∧
    field OnAscii.isdigit OnAscii.int o1 n1 ∧ field OnAscii.isdigit OnAscii.int o2 n2 ∧
    field OnAscii.isdigit OnAscii.int o3 n3 ∧ field OnAscii.isdigit OnAscii.int o4 n4 ∧
    Byte.to_nat <$> [Byte.x0a; Byte.x00; Byte.x00; Byte.x01] = [n1; n2; n3; n4].
Proof.
  apply (ip2bytearray_OK_inv OnAscii.isdigit OnAscii.int "10.0.0.1"
           [Byte.x0a; Byte.x00; Byte.x00; Byte.x01]).
  reflexivity.
Defined.

(** A field of 4301 zeros: decimal digits, but more than [int] takes. *)
Lemma ip2bytearray_int_raises_witness :
  ip2bytearray OnAscii.isdigit OnAscii.int
    (string_of_list_ascii (replicate 4301 "0"%char) +:+ ".0.0.1") = Raise ValueError.
Proof.
  apply (ip2bytearray_int_raises OnAscii.isdigit OnAscii.int _
           (string_of_list_ascii (replicate 4301 "0"%char)) ["0"; "0"; "1"]).
  - vm_compute. reflexivity.
  - reflexivity.
  - vm_compute. discriminate.
  - vm_compute. reflexivity.
  - vm_compute. reflexivity.
Defined.

Lemma ip2bytearray_ends_witness :
  (∃ msg ba, ip2bytearray OnAscii.isdigit OnAscii.int "1.2.3" = Ok (msg, ba) ∧ length ba = 4) ∨
  ip2bytearray OnAscii.isdigit OnAscii.int "1.2.3" = Raise ValueError.
Proof.
  apply (ip2bytearray_ends OnAscii.isdigit OnAscii.int OnAscii_int_ValueError "1.2.3").
Defined.

(** ** Start-up *)

Section StartupFacts.

Variable upper : string → string.
Variable isdigit : string → bool.
Variable int : string → py nat.

(** [int] of a string raises nothing but ValueError. *)
Hypothesis int_ValueError : ∀ o, (∃ n, int o = Ok n) ∨ int o = Raise ValueError.

Implicit Types (argv : list string) (cfg : config).

(** The loop over the arguments always finds the value after a flag and
    ends within the passes allowed. *)
Lemma arg_loop_total k argv arg g :
  length argv - 1 ≤ arg + k → ∃ r, arg_loop upper (S k) arg argv g = Ok r.
Proof.
  revert arg g. induction k as [|k IH]; intros arg g Hk; cbn [arg_loop].
  - destruct (Nat.ltb_spec arg (length argv - 1)); [lia|by eexists].
  - destruct (Nat.ltb_spec arg (length argv - 1)) as [Harg|]; [|by eexists].
    destruct (lookup_lt_is_Some_2 argv arg) as [a ->]; [lia|].
    destruct (lookup_lt_is_Some_2 argv (arg + 1)) as [v ->]; [lia|].
    repeat (destruct (String.eqb a _); [apply IH; lia|]). by eexists.
Qed.

(** X18: start-up always ends: with an [exit()], with a configuration, or
    with the ValueError that [int] raises inside [ip2bytearray]; reading the
    command line never indexes outside [sys.argv]. *)
Theorem startup_ends argv :
  argv ≠ [] →
  (∃ r, startup upper isdigit int argv = Ok r) ∨
  startup upper isdigit int argv = Raise ValueError.
Proof.
  intros Hargv. unfold startup. destruct argv as [|progname argv']; [done|].
  cbn [lookup list_lookup].
  destruct (_ mod 2 =? 0); cbn [negb]; [|left; by eexists].
  destruct (arg_loop_total (length (progname :: argv') - 1) (progname :: argv') 1
              (Globals "" "" "" "" "")) as [[e|g] ->]; [lia|left; by eexists|].
  cbn [mbind py_bind].
  destruct (String.eqb (g_macaddr g) ""); [left; by eexists|].
  destruct (String.eqb (g_ipbind g) ""); [left; by eexists|].
  pose proof (ip2bytearray_cases isdigit int int_ValueError (g_ipbind g)) as Hb.
  destruct (ip2bytearray isdigit int (g_ipbind g)) as [[m1 b1]|e|]; [|subst; by right|done].
  cbn [mbind py_bind]. destruct (String.eqb m1 "OK"); cbn [negb]; [|left; by eexists].
  pose proof (ip2bytearray_cases isdigit int int_ValueError (g_ipaddr g)) as Hi.
  destruct (ip2bytearray isdigit int (g_ipaddr g)) as [[m2 b2]|e|]; [|subst; by right|done].
  cbn [mbind py_bind]. destruct (String.eqb m2 "OK"); cbn [negb]; [|left; by eexists].
  pose proof (ip2bytearray_cases isdigit int int_ValueError (g_subnet g)) as Hs.
  destruct (ip2bytearray isdigit int (g_subnet g)) as [[m3 b3]|e|]; [|subst; by right|done].
  cbn [mbind py_bind]. destruct (String.eqb m3 "OK"); cbn [negb]; [|left; by eexists].
  pose proof (ip2bytearray_cases isdigit int int_ValueError (g_gateway g)) as Hg.
  destruct (ip2bytearray isdigit int (g_gateway g)) as [[m4 b4]|e|]; [|subst; by right|done].
  cbn [mbind py_bind]. destruct (String.eqb m4 "OK"); cbn [negb]; left; by eexists.
Qed.



End StartupFacts.

Lemma startup_ends_witness :
  (∃ r, startup OnAscii.upper OnAscii.isdigit OnAscii.int
          ["minidhcp.py"; "-m"; "00:11:22:33:44:55"; "-b"; "1.2.3"] = Ok r) ∨
  startup OnAscii.upper OnAscii.isdigit OnAscii.int
    ["minidhcp.py"; "-m"; "00:11:22:33:44:55"; "-b"; "1.2.3"] = Raise ValueError.
Proof.
  apply (startup_ends OnAscii.upper OnAscii.isdigit OnAscii.int OnAscii_int_ValueError
           ["minidhcp.py"; "-m"; "00:11:22:33:44:55"; "-b"; "1.2.3"]).
  discriminate.
Defined.


(** ** buildipaddr *)

(** X20: [buildipaddr] returns its four arguments as a 4-byte array when
    each is at most 255 and raises ValueError otherwise; the cookie constant
    is the one the cookie check accepts. *)
Theorem buildipaddr_bytes (ip1 ip2 ip3 ip4 : nat) :
  (ip1 ≤ 255 ∧ ip2 ≤ 255 ∧ ip3 ≤ 255 ∧ ip4 ≤ 255 →
   ∃ ba, buildipaddr ip1 ip2 ip3 ip4 = Ok ba ∧
         Byte.to_nat <$> ba = [ip1; ip2; ip3; ip4]) ∧
  (255 < ip1 ∨ 255 < ip2 ∨ 255 < ip3 ∨ 255 < ip4 →
   buildipaddr ip1 ip2 ip3 ip4 = Raise ValueError) ∧
  cookieconstant = Ok magic.
Proof.
  split; [|split; [|reflexivity]].
  - intros (H1 & H2 & H3 & H4).
    destruct (Byte.of_nat ip1) as [x1|] eqn:E1; [|apply Byte.of_nat_None_iff in E1; lia].
    destruct (Byte.of_nat ip2) as [x2|] eqn:E2; [|apply Byte.of_nat_None_iff in E2; lia].
    destruct (Byte.of_nat ip3) as [x3|] eqn:E3; [|apply Byte.of_nat_None_iff in E3; lia].
    destruct (Byte.of_nat ip4) as [x4|] eqn:E4; [|apply Byte.of_nat_None_iff in E4; lia].
    exists [x1; x2; x3; x4]. unfold buildipaddr, setitem. cbn. rewrite E1. cbn. rewrite E2. cbn.
    rewrite E3. cbn. rewrite E4. split; [done|].
    apply Byte.to_of_nat in E1, E2, E3, E4. cbn. congruence.
  - intros Hbig. unfold buildipaddr, setitem. cbn.
    destruct (Byte.of_nat ip1) as [x1|] eqn:E1; [|done]. cbn.
    destruct (Byte.of_nat ip2) as [x2|] eqn:E2; [|done]. cbn.
    destruct (Byte.of_nat ip3) as [x3|] eqn:E3; [|done]. cbn.
    destruct (Byte.of_nat ip4) as [x4|] eqn:E4; [|done].
    apply Byte.to_of_nat in E1, E2, E3, E4.
    pose proof (Byte.to_nat_bounded x1). pose proof (Byte.to_nat_bounded x2).
    pose proof (Byte.to_nat_bounded x3). pose proof (Byte.to_nat_bounded x4). lia.
Qed.

Lemma buildipaddr_bytes_witness :
  (∃ ba, buildipaddr 192 168 2 53 = Ok ba ∧ Byte.to_nat <$> ba = [192; 168; 2; 53]) ∧
  buildipaddr 192 168 2 256 = Raise ValueError.
Proof.
  split.
  - apply (buildipaddr_bytes 192 168 2 53). lia.
  - apply (buildipaddr_bytes 192 168 2 256). lia.
Defined.
